(** * Cleaning pipeline of the Cambridge car-park usage notebook

    A shallow embedding of the data-wrangling cells of
    [cambridge_carpark_usage.ipynb]: the [ge_data] data frame is a value
    that every cell takes and returns, a cell that can raise returns in
    the monad [res].  The pandas calls the notebook makes ([pd.Categorical],
    [pd.to_datetime], [.str.strip], [.replace], [.astype('int64')],
    [.apply], [.loc]) are modelled on the column types that [pd.read_csv]
    produces for this file: [object] columns holding [str] and NaN, and
    [int64] columns.  A [float64] column (a numeric column with blanks or
    decimals) is outside the model.  A [str] is the sequence of its code
    points; the tables of whitespace and of decimal digits are those of
    Unicode 14.0. *)

From Stdlib Require Import ZArith NArith Ascii String List Bool Lia.
From stdpp Require Import base tactics option list strings.

Local Open Scope string_scope.
Local Open Scope Z_scope.

(** ** Exceptions and the result monad *)

Inductive exn :=
| KeyError | ValueError | TypeError | AttributeError
| OverflowError | OutOfBoundsDatetime.

Inductive res (A : Type) :=
| Ok (a : A)
| Raise (e : exn).
Arguments Ok {A} a.
Arguments Raise {A} e.

#[export] Instance res_ret : MRet res := fun A a => Ok a.
#[export] Instance res_bind : MBind res := fun A B f m =>
  match m with Ok a => f a | Raise e => Raise e end.
#[export] Instance res_fmap : FMap res := fun A B f m =>
  match m with Ok a => Ok (f a) | Raise e => Raise e end.

(** [mapM] of the notebook's element-wise operations: the first element
    that raises aborts the whole column operation. *)
Fixpoint traverse {A B} (f : A -> res B) (xs : list A) : res (list B) :=
  match xs with
  | [] => Ok []
  | x :: xs' => y ← f x; ys ← traverse f xs'; Ok (y :: ys)
  end.

(** ** Python strings *)

(** A [str] is the list of its code points.  [u] writes the [str] of an
    ASCII literal and [ch] the code point of an ASCII character. *)
Definition str : Type := list N.

Definition u (s : string) : str := map N_of_ascii (list_ascii_of_string s).
Definition ch (c : ascii) : N := N_of_ascii c.

#[export] Instance str_eq_dec : EqDecision str.
Proof. unfold str. apply _. Defined.

(** [a == b] *)
Fixpoint str_eqb (a b : str) : bool :=
  match a, b with
  | [], [] => true
  | x :: a', y :: b' => N.eqb x y && str_eqb a' b'
  | _, _ => false
  end.

(** [a <= b]: by code points, a prefix before what it begins. *)
Fixpoint str_leb (a b : str) : bool :=
  match a, b with
  | [], _ => true
  | _ :: _, [] => false
  | x :: a', y :: b' => N.ltb x y || (N.eqb x y && str_leb a' b')
  end.

(** [str.isspace] of one character: TAB, LF, VT, FF, CR, FS, GS, RS, US,
    the blank, NEL, the no-break space, the Ogham space mark, the spaces
    U+2000 to U+200A, the line and paragraph separators, the narrow
    no-break space, the medium mathematical space and the ideographic
    space. *)
Definition is_space (c : N) : bool :=
  let n := Z.of_N c in
  ((0x09 <=? n) && (n <=? 0x0D)) || ((0x1C <=? n) && (n <=? 0x20)) ||
  (n =? 0x85) || (n =? 0xA0) || (n =? 0x1680) ||
  ((0x2000 <=? n) && (n <=? 0x200A)) ||
  (n =? 0x2028) || (n =? 0x2029) || (n =? 0x202F) || (n =? 0x205F) ||
  (n =? 0x3000).

Fixpoint lstrip (s : str) : str :=
  match s with
  | c :: s' => if is_space c then lstrip s' else s
  | [] => []
  end.

Definition rstrip (s : str) : str :=
  rev (lstrip (rev s)).

(** [str.strip()] *)
Definition strip (s : str) : str := rstrip (lstrip s).

(** An ASCII digit, as the character classes [[0-9]] of a pattern know
    it. *)
Definition digit_val (c : N) : option Z :=
  let n := Z.of_N c in
  if (48 <=? n) && (n <=? 57) then Some (n - 48) else None.

(** The code points of the digits zero: every decimal digit of Unicode
    is one of the ten characters that begin at one of them. *)
Definition decimal_zeros : list Z :=
  [0x30; 0x660; 0x6F0; 0x7C0; 0x966; 0x9E6; 0xA66; 0xAE6; 0xB66; 0xBE6;
   0xC66; 0xCE6; 0xD66; 0xDE6; 0xE50; 0xED0; 0xF20; 0x1040; 0x1090;
   0x17E0; 0x1810; 0x1946; 0x19D0; 0x1A80; 0x1A90; 0x1B50; 0x1BB0;
   0x1C40; 0x1C50; 0xA620; 0xA8D0; 0xA900; 0xA9D0; 0xA9F0; 0xAA50;
   0xABF0; 0xFF10; 0x104A0; 0x10D30; 0x11066; 0x110F0; 0x11136; 0x111D0;
   0x112F0; 0x11450; 0x114D0; 0x11650; 0x116C0; 0x11730; 0x118E0;
   0x11950; 0x11C50; 0x11D50; 0x11DA0; 0x16A60; 0x16AC0; 0x16B50;
   0x1D7CE; 0x1D7D8; 0x1D7E2; 0x1D7EC; 0x1D7F6; 0x1E140; 0x1E2F0;
   0x1E950; 0x1FBF0].

(** A decimal digit, as [\d] of a pattern and [int()] know it. *)
Definition decimal (c : N) : option Z :=
  let n := Z.of_N c in
  match List.find (fun z => (z <=? n) && (n <=? z + 9)) decimal_zeros with
  | Some z => Some (n - z)
  | None => None
  end.

(** Digits of a decimal literal; an underscore is accepted between two
    digits only.  [seen] tells that the previous character was a digit. *)
Fixpoint digits_acc (acc : Z) (seen : bool) (s : str) : option Z :=
  match s with
  | [] => if seen then Some acc else None
  | c :: s' =>
      if N.eqb c (ch "_")
      then (if seen then digits_acc acc false s' else None)
      else match decimal c with
           | Some d => digits_acc (10 * acc + d) true s'
           | None => None
           end
  end.

(** The whitespace [int()] skips at both ends: TAB, LF, VT, FF, CR, the
    blank, and the whitespace above ASCII; not FS, GS, RS, US. *)
Definition int_space (c : N) : bool :=
  let n := Z.of_N c in
  ((0x09 <=? n) && (n <=? 0x0D)) || (n =? 0x20) || ((127 <=? n) && is_space c).

Fixpoint int_lstrip (s : str) : str :=
  match s with
  | c :: s' => if int_space c then int_lstrip s' else s
  | [] => []
  end.

Definition int_strip (s : str) : str :=
  rev (int_lstrip (rev (int_lstrip s))).

Definition int64_min : Z := - 2 ^ 63.
Definition int64_max : Z := 2 ^ 63 - 1.
Definition in_int64 (z : Z) : bool := (int64_min <=? z) && (z <=? int64_max).

(** [int(s)] for a [str]: surrounding whitespace, an optional sign, a
    decimal literal. *)
Definition py_int (s : str) : option Z :=
  match int_strip s with
  | c :: r =>
      if N.eqb c (ch "+") then digits_acc 0 false r
      else if N.eqb c (ch "-") then Z.opp <$> digits_acc 0 false r
      else digits_acc 0 false (c :: r)
  | [] => None
  end.

(** ** Data frame *)

(** The Python objects an [object] column holds here: [str], [int] (put
    there by [replace]) and the float NaN of a missing cell. *)
Inductive obj :=
| OStr (s : str)
| OInt (z : Z)
| ONaN.

#[export] Instance obj_eq_dec : EqDecision obj.
Proof. solve_decision. Defined.

(** A timestamp at midnight; the notebook never produces a time of day. *)
Record date := mkdate { year : Z; month : Z; day : Z }.

#[export] Instance date_eq_dec : EqDecision date.
Proof. solve_decision. Defined.

(** [pd.Categorical]: the categories in their order, and per row the
    position of its category, [-1] for a missing value. *)
Record categorical := mkcat {
  categories : list str;
  ordered : bool;
  codes : list Z
}.

Inductive column :=
| ColObject (xs : list obj)
| ColInt64 (xs : list Z)
| ColCategorical (c : categorical)
| ColDatetime (xs : list (option date)).

Record DataFrame := mkdf {
  index : list nat;
  columns : list (str * column)
}.

Fixpoint lookup_col (l : str) (cs : list (str * column)) : option column :=
  match cs with
  | [] => None
  | (k, c) :: cs' => if str_eqb k l then Some c else lookup_col l cs'
  end.

(** [df[l]] *)
Definition getitem (df : DataFrame) (l : str) : res column :=
  match lookup_col l (columns df) with
  | Some c => Ok c
  | None => Raise KeyError
  end.

Fixpoint assign_col (l : str) (c : column) (cs : list (str * column))
  : list (str * column) :=
  match cs with
  | [] => [(l, c)]
  | (k, c0) :: cs' =>
      if str_eqb k l then (k, c) :: cs' else (k, c0) :: assign_col l c cs'
  end.

(** [df[l] = c]: the column keeps its place, a new label is appended. *)
Definition setitem (df : DataFrame) (l : str) (c : column) : DataFrame :=
  mkdf (index df) (assign_col l c (columns df)).

(** [df[l] = f(df[l])], the shape of most cells of the notebook. *)
Definition update_col (df : DataFrame) (l : str) (f : column -> res column)
  : res DataFrame :=
  c ← getitem df l; c' ← f c; Ok (setitem df l c').

(** ** Weekday column: [pd.Categorical] *)

Definition day_categories : list str :=
  [(u "Mon"); (u "Tue"); (u "Wed"); (u "Thu"); (u "Fri"); (u "Sat"); (u "Sun")].

(** Position of a label among the categories. *)
Fixpoint get_indexer (cats : list str) (s : str) : Z :=
  match cats with
  | [] => -1
  | k :: cats' =>
      if str_eqb k s then 0
      else let i := get_indexer cats' s in if i <? 0 then -1 else i + 1
  end.

(** The value a code stands for; [None] is the missing value. *)
Definition cat_value (cats : list str) (code : Z) : option str :=
  if code <? 0 then None else cats !! Z.to_nat code.

Definition cat_values (c : categorical) : list (option str) :=
  map (cat_value (categories c)) (codes c).

Definition code_of_obj (cats : list str) (o : obj) : Z :=
  match o with
  | OStr s => get_indexer cats s
  | OInt _ | ONaN => -1
  end.

Definition code_of_value (cats : list str) (v : option str) : Z :=
  match v with
  | Some s => get_indexer cats s
  | None => -1
  end.

(** [pd.Categorical(values, categories=cats, ordered=ord)]: a value that
    is not one of [cats] gets the code of the missing value. *)
Definition Categorical (values : column) (cats : list str) (ord : bool)
  : categorical :=
  match values with
  | ColObject xs => mkcat cats ord (map (code_of_obj cats) xs)
  | ColInt64 xs => mkcat cats ord (map (fun _ => -1) xs)
  | ColCategorical c => mkcat cats ord (map (code_of_value cats) (cat_values c))
  | ColDatetime xs => mkcat cats ord (map (fun _ => -1) xs)
  end.

(** The order of an ordered categorical is the order of its codes. *)
Definition cat_lt (cats : list str) (a b : str) : bool :=
  let i := get_indexer cats a in
  let j := get_indexer cats b in
  (0 <=? i) && (i <? j).

(** ** Date column: [pd.to_datetime(..., format="%d/%m/%Y")] *)

Fixpoint split_acc (sep : N) (cur : str) (s : str) : list str :=
  match s with
  | [] => [rev cur]
  | c :: s' =>
      if N.eqb c sep then rev cur :: split_acc sep [] s'
      else split_acc sep (c :: cur) s'
  end.

(** The fields between the separators, as [s.split(sep)] gives them. *)
Definition split (sep : N) (s : str) : list str :=
  split_acc sep [] s.

(** [%d]: [3[0-1]|[1-2]\d|0[1-9]|[1-9]| [1-9]]; the value is [int()] of
    the field. *)
Definition field_d (f : str) : option Z :=
  match f with
  | [a; b] =>
      match digit_val a with
      | Some x =>
          if x =? 3 then
            match digit_val b with
            | Some y => if y <=? 1 then Some (30 + y) else None
            | None => None
            end
          else if (x =? 1) || (x =? 2) then
            match decimal b with
            | Some y => Some (10 * x + y)
            | None => None
            end
          else if x =? 0 then
            match digit_val b with
            | Some y => if 1 <=? y then Some y else None
            | None => None
            end
          else None
      | None =>
          match digit_val b with
          | Some y => if N.eqb a (ch " ") && (1 <=? y) then Some y else None
          | None => None
          end
      end
  | [a] =>
      match digit_val a with
      | Some x => if 1 <=? x then Some x else None
      | None => None
      end
  | _ => None
  end.

(** [%m]: [1[0-2]|0[1-9]|[1-9]]. *)
Definition field_m (f : str) : option Z :=
  match f with
  | [a; b] =>
      match digit_val a, digit_val b with
      | Some x, Some y =>
          let v := 10 * x + y in
          if (1 <=? v) && (v <=? 12) then Some v else None
      | _, _ => None
      end
  | [a] =>
      match digit_val a with
      | Some x => if 1 <=? x then Some x else None
      | None => None
      end
  | _ => None
  end.

(** [%Y]: [\d\d\d\d]. *)
Definition field_Y (f : str) : option Z :=
  match f with
  | [a; b; c; d] =>
      match decimal a, decimal b, decimal c, decimal d with
      | Some w, Some x, Some y, Some z =>
          Some (1000 * w + 100 * x + 10 * y + z)
      | _, _, _, _ => None
      end
  | _ => None
  end.

Definition is_leap (y : Z) : bool :=
  ((y mod 4 =? 0) && negb (y mod 100 =? 0)) || (y mod 400 =? 0).

Definition days_in_month (y m : Z) : Z :=
  if m =? 2 then (if is_leap y then 29 else 28)
  else if (m =? 4) || (m =? 6) || (m =? 9) || (m =? 11) then 30
  else 31.

(** A date of the proleptic Gregorian calendar, as [datetime.date] checks. *)
Definition valid_date (d : date) : bool :=
  (1 <=? year d) && (year d <=? 9999) &&
  (1 <=? month d) && (month d <=? 12) &&
  (1 <=? day d) && (day d <=? days_in_month (year d) (month d)).

Definition date_leb (a b : date) : bool :=
  (year a <? year b) ||
  ((year a =? year b) &&
   ((month a <? month b) ||
    ((month a =? month b) && (day a <=? day b)))).

(** First and last midnight a [datetime64[ns]] can hold. *)
Definition Timestamp_min : date := mkdate 1677 9 22.
Definition Timestamp_max : date := mkdate 2262 4 11.

Definition in_bounds (d : date) : bool :=
  date_leb Timestamp_min d && date_leb d Timestamp_max.

(** One string against ["%d/%m/%Y"]: the pattern has to cover the whole
    string, the fields hold no [/]. *)
Definition strptime (s : str) : res date :=
  match split (ch "/") s with
  | [fd; fm; fy] =>
      match field_d fd, field_m fm, field_Y fy with
      | Some d, Some m, Some y =>
          let r := mkdate y m d in
          if valid_date r
          then (if in_bounds r then Ok r else Raise OutOfBoundsDatetime)
          else Raise ValueError
      | _, _, _ => Raise ValueError
      end
  | _ => Raise ValueError
  end.

(** The texts that stand for a missing timestamp. *)
Definition nat_strings : list str :=
  [u "NaT"; u "nat"; u "NAT"; u "nan"; u "NaN"; u "NAN"].

Definition is_nat_string (s : str) : bool :=
  match s with
  | [] => true
  | _ :: _ => existsb (str_eqb s) nat_strings
  end.

(** One text of the column: the empty text and the texts for NaT are
    not matched against the format. *)
Definition str_to_datetime (s : str) : res (option date) :=
  if is_nat_string s then Ok None else Some <$> strptime s.

Definition obj_to_datetime (o : obj) : res (option date) :=
  match o with
  | OStr s => str_to_datetime s
  | ONaN => Ok None
  | OInt _ => Raise ValueError
  end.

(** [pd.to_datetime(col, dayfirst=True, format="%d/%m/%Y")]; with a
    [format] the [dayfirst] flag has no effect.  The decimal text of an
    integer holds no [/] and cannot match. *)
Definition to_datetime (c : column) : res column :=
  match c with
  | ColObject xs => ColDatetime <$> traverse obj_to_datetime xs
  | ColInt64 xs =>
      ColDatetime <$> traverse (fun _ : Z => Raise (A:=option date) ValueError) xs
  | ColCategorical cat =>
      ColDatetime <$>
        traverse (fun v : option str =>
                    match v with
                    | Some s => str_to_datetime s
                    | None => Ok None
                    end) (cat_values cat)
  | ColDatetime xs => Ok (ColDatetime xs)
  end.

(** ** [whitespace_remover] *)

Definition is_str (o : obj) : bool := match o with OStr _ => true | _ => false end.
Definition is_int (o : obj) : bool := match o with OInt _ => true | _ => false end.

(** [col.str.strip()]: the [.str] accessor refuses a column of integers
    only; a cell that is not a [str] comes out as NaN. *)
Definition str_strip (xs : list obj) : res (list obj) :=
  if existsb is_int xs && negb (existsb is_str xs) then Raise AttributeError
  else Ok (map (fun o => match o with OStr s => OStr (strip s) | _ => ONaN end) xs).

Definition strip_if_object (kc : str * column) : res (str * column) :=
  match kc.2 with
  | ColObject xs => ys ← str_strip xs; Ok (kc.1, ColObject ys)
  | _ => Ok kc
  end.

(** The labels are stripped first; [df[i].dtype] then raises on a label
    that two columns share, since [df[i]] is a frame there. *)
Definition whitespace_remover (df : DataFrame) : res DataFrame :=
  let cs := map (fun kc : str * column => (strip kc.1, kc.2)) (columns df) in
  if decide (NoDup cs.*1)
  then cs' ← traverse strip_if_object cs; Ok (mkdf (index df) cs')
  else Raise AttributeError.

(** ** Replacement of tokens *)

Fixpoint find_token (s : str) (m : list (str * obj)) : option obj :=
  match m with
  | [] => None
  | (k, v) :: m' => if str_eqb k s then Some v else find_token s m'
  end.

Definition replace_obj (m : list (str * obj)) (o : obj) : obj :=
  match o with
  | OStr s => match find_token s m with Some v => v | None => o end
  | OInt _ | ONaN => o
  end.

(** [col.replace(m)] for string tokens [m]: a cell is replaced when it is
    the token, as a whole.  No integer, timestamp or weekday label is
    equal to one of the tokens the notebook replaces. *)
Definition Series_replace (m : list (str * obj)) (c : column) : column :=
  match c with
  | ColObject xs => ColObject (map (replace_obj m) xs)
  | ColInt64 _ | ColCategorical _ | ColDatetime _ => c
  end.

(** [df.replace(tok, v)] *)
Definition DataFrame_replace (tok : str) (v : obj) (df : DataFrame) : DataFrame :=
  mkdf (index df)
       (map (fun kc : str * column => (kc.1, Series_replace [(tok, v)] kc.2))
            (columns df)).

(** ** [astype('int64')] *)

Definition obj_to_int64 (o : obj) : res Z :=
  match o with
  | OStr s =>
      match py_int s with
      | Some z => if in_int64 z then Ok z else Raise OverflowError
      | None => Raise ValueError
      end
  | OInt z => if in_int64 z then Ok z else Raise OverflowError
  | ONaN => Raise ValueError
  end.

(** Days since 1970-01-01. *)
Definition days_from_civil (d : date) : Z :=
  let y := if month d <=? 2 then year d - 1 else year d in
  let era := y / 400 in
  let yoe := y - era * 400 in
  let mp := (month d + 9) mod 12 in
  let doy := (153 * mp + 2) / 5 + day d - 1 in
  let doe := yoe * 365 + yoe / 4 - yoe / 100 + doy in
  era * 146097 + doe - 719468.

Definition asi8 (d : option date) : Z :=
  match d with
  | Some d => days_from_civil d * 86400 * 1000000000
  | None => int64_min
  end.

(** An [object] column is cast cell by cell with [int()]; an [int64]
    column is returned as it is.  A categorical is cast through its
    values and refuses a missing one; a datetime column gives its
    nanoseconds since the epoch. *)
Definition astype_int64 (c : column) : res column :=
  match c with
  | ColObject xs => ColInt64 <$> traverse obj_to_int64 xs
  | ColInt64 xs => Ok (ColInt64 xs)
  | ColCategorical cat =>
      if forallb (fun v : option str => bool_decide (is_Some v)) (cat_values cat)
      then ColInt64 <$>
             traverse (fun v : option str =>
                         obj_to_int64 (from_option OStr ONaN v))
                      (cat_values cat)
      else Raise ValueError
  | ColDatetime xs => Ok (ColInt64 (map asi8 xs))
  end.

(** ** The anomaly correction: [apply(lambda x: 0 if x < 0 else x)] *)

Definition floor0 (x : Z) : Z := if x <? 0 then 0 else x.

Definition floor0_obj (o : obj) : res obj :=
  match o with
  | OInt z => Ok (OInt (floor0 z))
  | ONaN => Ok ONaN
  | OStr _ => Raise TypeError
  end.

(** On an [int64] column the function maps the values.  In an [object]
    column a [str] does not compare with 0; on a categorical the function
    is applied to the categories, which are [str]; a timestamp does not
    compare with 0 either. *)
Definition apply_floor0 (c : column) : res column :=
  match c with
  | ColInt64 xs => Ok (ColInt64 (map floor0 xs))
  | ColObject xs => ColObject <$> traverse floor0_obj xs
  | ColCategorical cat =>
      match categories cat with [] => Ok c | _ :: _ => Raise TypeError end
  | ColDatetime xs =>
      match xs with [] => Ok c | _ :: _ => Raise TypeError end
  end.

(** ** The cells of the notebook, in their order *)

Definition set_day_categorical (df : DataFrame) : res DataFrame :=
  update_col df (u "Day")
    (fun c => Ok (ColCategorical (Categorical c day_categories true))).

Definition parse_date (df : DataFrame) : res DataFrame :=
  update_col df (u "Date") to_datetime.

(** [replace({'-': 0, '1,678': 167})] *)
Definition typo_fix : list (str * obj) := [((u "-"), OInt 0); ((u "1,678"), OInt 167)].

Definition repair_up_to_1hr (df : DataFrame) : res DataFrame :=
  df1 ← update_col df (u "Up to 1 hr") (fun c => Ok (Series_replace typo_fix c));
  update_col df1 (u "Up to 1 hr") astype_int64.

Definition replace_dash (df : DataFrame) : DataFrame :=
  DataFrame_replace (u "-") (OInt 0) df.

Definition coerced_later : list str :=
  [(u "1 to 2 hrs"); (u "2 to 3 hrs"); (u "3 to 4 hrs"); (u "4 to 5 hrs"); (u "5 to 6 hrs");
   (u "6 to <24 hours"); (u "24 hours +"); (u "Subscribers"); (u "Total Exc Sub")].

Fixpoint coerce_all (ls : list str) (df : DataFrame) : res DataFrame :=
  match ls with
  | [] => Ok df
  | l :: ls' => df' ← update_col df l astype_int64; coerce_all ls' df'
  end.

Definition coerce_numeric (df : DataFrame) : res DataFrame :=
  coerce_all coerced_later df.

(** [replace('0', np.nan)] *)
Definition zero_token : list (str * obj) := [((u "0"), ONaN)].

Definition normalize_comments (df : DataFrame) : res DataFrame :=
  update_col df (u "Comments") (fun c => Ok (Series_replace zero_token c)).

Definition floor_total (df : DataFrame) : res DataFrame :=
  update_col df (u "Total Exc Sub") apply_floor0.

(** The value repair of the notebook: the fix of [Up to 1 hr], the
    replacement of [-] in the whole frame, the coercion of the other nine
    columns. *)
Definition repair (df : DataFrame) : res DataFrame :=
  df1 ← repair_up_to_1hr df;
  coerce_numeric (replace_dash df1).

(** The notebook from [pd.read_csv] up to the first [describe()], which
    shows the negative total. *)
Definition tidy (df : DataFrame) : res DataFrame :=
  df1 ← set_day_categorical df;
  df2 ← parse_date df1;
  df3 ← whitespace_remover df2;
  df4 ← repair df3;
  normalize_comments df4.

(** The whole of section 2 of the notebook. *)
Definition clean (df : DataFrame) : res DataFrame :=
  df5 ← tidy df;
  floor_total df5.

(** ** The yearly subsets *)

Fixpoint select {A} (mask : list bool) (xs : list A) : list A :=
  match mask, xs with
  | b :: mask', x :: xs' => if b then x :: select mask' xs' else select mask' xs'
  | _, _ => []
  end.

Definition select_col (mask : list bool) (c : column) : column :=
  match c with
  | ColObject xs => ColObject (select mask xs)
  | ColInt64 xs => ColInt64 (select mask xs)
  | ColCategorical cat =>
      ColCategorical (mkcat (categories cat) (ordered cat) (select mask (codes cat)))
  | ColDatetime xs => ColDatetime (select mask xs)
  end.

(** [df.loc[mask]]: the rows where the mask holds, under their labels. *)
Definition loc (df : DataFrame) (mask : list bool) : DataFrame :=
  mkdf (select mask (index df))
       (map (fun kc : str * column => (kc.1, select_col mask kc.2)) (columns df)).

(** The two digits of an ISO month or day. *)
Definition field_2 (f : str) : option Z :=
  match f with
  | [a; b] =>
      match digit_val a, digit_val b with
      | Some x, Some y => Some (10 * x + y)
      | _, _ => None
      end
  | _ => None
  end.

(** The timestamp that a string bound of a comparison stands for; the
    notebook writes its bounds as [YYYY-MM-DD]. *)
Definition Timestamp (s : str) : res date :=
  match split (ch "-") s with
  | [fy; fm; fd] =>
      match field_Y fy, field_2 fm, field_2 fd with
      | Some y, Some m, Some d =>
          let r := mkdate y m d in
          if valid_date r
          then (if in_bounds r then Ok r else Raise OutOfBoundsDatetime)
          else Raise ValueError
      | _, _, _ => Raise ValueError
      end
  | _ => Raise ValueError
  end.

(** [(d >= lo) & (d <= hi)] on timestamps; a comparison with NaT is false. *)
Definition between (lo hi : date) (d : option date) : bool :=
  match d with
  | Some d => date_leb lo d && date_leb d hi
  | None => false
  end.

(** The same on the cells of an [object] column: strings compare as
    strings, NaN compares false, an [int] does not compare with a [str]. *)
Definition between_obj (lo hi : str) (o : obj) : res bool :=
  match o with
  | OStr s => Ok (str_leb lo s && str_leb s hi)
  | ONaN => Ok false
  | OInt _ => Raise TypeError
  end.

(** [(col >= lo) & (col <= hi)] *)
Definition between_mask (c : column) (lo hi : str) : res (list bool) :=
  match c with
  | ColDatetime xs =>
      a ← Timestamp lo; b ← Timestamp hi; Ok (map (between a b) xs)
  | ColObject xs => traverse (between_obj lo hi) xs
  | ColInt64 _ | ColCategorical _ => Raise TypeError
  end.

(** [df.loc[(df['Date'] >= lo) & (df['Date'] <= hi)]] *)
Definition date_range (df : DataFrame) (lo hi : str) : res DataFrame :=
  c ← getitem df (u "Date");
  mask ← between_mask c lo hi;
  Ok (loc df mask).

Definition ge2018_data (ge_data : DataFrame) : res DataFrame :=
  date_range ge_data (u "2018-01-01") (u "2018-12-31").
Definition ge2019_data (ge_data : DataFrame) : res DataFrame :=
  date_range ge_data (u "2019-01-01") (u "2019-12-31").
Definition ge2020_data (ge_data : DataFrame) : res DataFrame :=
  date_range ge_data (u "2020-01-01") (u "2020-12-31").
Definition ge2021_data (ge_data : DataFrame) : res DataFrame :=
  date_range ge_data (u "2021-01-01") (u "2021-12-31").
Definition ge2022_data (ge_data : DataFrame) : res DataFrame :=
  date_range ge_data (u "2022-01-01") (u "2022-12-31").

(** The five subsets with their years. *)
Definition year_subsets : list (Z * (DataFrame -> res DataFrame)) :=
  [(2018, ge2018_data); (2019, ge2019_data); (2020, ge2020_data);
   (2021, ge2021_data); (2022, ge2022_data)].

(** ** Rows *)

Inductive cell :=
| CObj (o : obj)
| CInt (z : Z)
| CCat (v : option str)
| CDate (d : option date).

Definition cells (c : column) : list cell :=
  match c with
  | ColObject xs => map CObj xs
  | ColInt64 xs => map CInt xs
  | ColCategorical cat => map CCat (cat_values cat)
  | ColDatetime xs => map CDate xs
  end.

(** A row: its index label and, per column label, its cell. *)
Definition row : Type := nat * list (str * option cell).

Fixpoint rows_of (idx : list nat) (cs : list (str * list cell)) : list row :=
  match idx with
  | [] => []
  | i :: idx' =>
      (i, map (fun kc : str * list cell => (kc.1, head kc.2)) cs)
        :: rows_of idx' (map (fun kc : str * list cell => (kc.1, tail kc.2)) cs)
  end.

Definition rows (df : DataFrame) : list row :=
  rows_of (index df)
          (map (fun kc : str * column => (kc.1, cells kc.2)) (columns df)).

Fixpoint row_get (l : str) (r : list (str * option cell)) : option cell :=
  match r with
  | [] => None
  | (k, c) :: r' => if str_eqb k l then c else row_get l r'
  end.

(** The row is dated within [lo .. hi]. *)
Definition row_dated (lo hi : date) (r : row) : bool :=
  match row_get (u "Date") r.2 with
  | Some (CDate d) => between lo hi d
  | _ => false
  end.

(** ** A sample of the input *)

Definition sample_raw : DataFrame :=
  mkdf [0; 1; 2; 3]%nat
    [((u "Date"), ColObject [OStr (u "01/04/2015"); OStr (u "31/12/2018"); OStr (u "01/01/2019"); OStr (u "31/12/2022")]);
     ((u "Day"), ColObject [OStr (u "Wed"); OStr (u "Mon"); OStr (u "Tue "); OStr (u "Sat")]);
     ((u " Up to 1 hr "), ColObject [OStr (u " 120 "); OStr (u "-"); OStr (u "1,678"); OStr (u "95")]);
     ((u "1 to 2 hrs"), ColObject [OStr (u "300"); OStr (u " - "); OStr (u "210"); OStr (u "180")]);
     ((u "2 to 3 hrs"), ColInt64 [250; 0; 190; 160]);
     ((u "3 to 4 hrs"), ColInt64 [100; 0; 80; 70]);
     ((u "4 to 5 hrs"), ColInt64 [50; 0; 40; 30]);
     ((u "5 to 6 hrs"), ColInt64 [20; 0; 10; 10]);
     ((u "6 to <24 hours"), ColInt64 [15; 0; 5; 5]);
     ((u "24 hours +"), ColObject [OStr (u "-"); OStr (u "-"); OStr (u "2"); OStr (u "1")]);
     ((u " Total Exc Sub "), ColInt64 [855; -1; 537; 551]);
     ((u "Subscribers "), ColObject [OStr (u "40"); OStr (u "-"); OStr (u "-5"); OStr (u "12")]);
     ((u "Comments"), ColObject [OStr (u "0"); OStr (u "-"); OStr (u " Car park closed "); ONaN])].

(** The sample after the cleaning cells. *)
Definition sample_clean : DataFrame :=
  Eval vm_compute in
    match clean sample_raw with Ok df => df | Raise _ => mkdf [] [] end.

(** ** Vocabulary of the statements *)

(** The ten columns the notebook casts to [int64]. *)
Definition numeric_columns : list str := (u "Up to 1 hr") :: coerced_later.

Definition dash : list (str * obj) := [((u "-"), OInt 0)].

(** The tokens a label is repaired with before its cast. *)
Definition repair_tokens (l : str) : list (str * obj) :=
  if str_eqb l (u "Up to 1 hr") then typo_fix else dash.

(** What [.str.strip()] makes of one cell. *)
Definition strip_obj (o : obj) : obj :=
  match o with OStr s => OStr (strip s) | OInt _ | ONaN => ONaN end.

(** The property as the specification words it: each numeric column of
    the frame is an integer column without a negative value. *)
Definition numeric_nonneg (df : DataFrame) : Prop :=
  forall l, l ∈ numeric_columns ->
    exists xs, getitem df l = Ok (ColInt64 xs) /\ Forall (fun z => 0 <= z) xs.

(** A cell read as one of the categories: the label it holds when that
    is a category, no value otherwise. *)
Definition as_category (cats : list str) (x : cell) : option str :=
  match x with
  | CObj (OStr s) | CCat (Some s) =>
      if bool_decide (s ∈ cats) then Some s else None
  | _ => None
  end.

(** Columns that neither [whitespace_remover] nor a replacement of
    tokens changes. *)
Definition typed_column (c : column) : Prop :=
  match c with
  | ColCategorical _ | ColDatetime _ => True
  | ColObject _ | ColInt64 _ => False
  end.

(** A column without a cell that is the token [-]. *)
Definition dash_free (c : column) : Prop :=
  match c with
  | ColObject xs => OStr (u "-") ∉ xs
  | ColInt64 _ | ColCategorical _ | ColDatetime _ => True
  end.

(** The frame a second run of the value repair leaves as it is. *)
Definition repaired (df : DataFrame) : Prop :=
  (forall l, l ∈ numeric_columns ->
     exists xs, lookup_col l (columns df) = Some (ColInt64 xs)) /\
  Forall (fun kc : str * column => dash_free kc.2) (columns df).

(** The sample when [whitespace_remover] has run. *)
Definition sample_stripped : DataFrame :=
  Eval vm_compute in
    match df1 ← set_day_categorical sample_raw; df2 ← parse_date df1;
          whitespace_remover df2
    with Ok df => df | Raise _ => mkdf [] [] end.

(** The text of a date in the form the file writes it: two digits of
    the day, two of the month, four of the year. *)
Definition digit_char (n : Z) : N := Z.to_N (48 + n).

Definition two_digits (v : Z) : str :=
  [digit_char (v / 10); digit_char (v mod 10)].

Definition four_digits (v : Z) : str :=
  [digit_char (v / 1000); digit_char (v / 100 mod 10);
   digit_char (v / 10 mod 10); digit_char (v mod 10)].

Definition dd_mm_yyyy (d : date) : str :=
  (two_digits (day d) ++ [ch "/"] ++ two_digits (month d) ++ [ch "/"]
     ++ four_digits (year d))%list.

(** The cells under a label among the columns of a frame seen as rows. *)
Fixpoint lookup_cells (l : str) (cs : list (str * list cell))
  : option (list cell) :=
  match cs with
  | [] => None
  | (k, xs) :: cs' => if str_eqb k l then Some xs else lookup_cells l cs'
  end.

(** The row is dated in the year [y]: from its first of January to its
    thirty-first of December. *)
Definition row_in_year (y : Z) (r : row) : bool :=
  row_dated (mkdate y 1 1) (mkdate y 12 31) r.

(** First and last character of a string, and strings of whitespace. *)
Definition first_char (s : str) : option N := head s.

Definition last_char (s : str) : option N := head (rev s).

Definition all_space (s : str) : bool := forallb is_space s.

(** No whitespace at either end. *)
Definition trimmed (s : str) : Prop :=
  (forall c, first_char s = Some c -> is_space c = false) /\
  (forall c, last_char s = Some c -> is_space c = false).

(** What [whitespace_remover] makes of one column. *)
Definition strip_column (c : column) : column :=
  match c with
  | ColObject xs => ColObject (map strip_obj xs)
  | ColInt64 _ | ColCategorical _ | ColDatetime _ => c
  end.

(** Number of rows of a column. *)
Definition col_length (c : column) : nat :=
  match c with
  | ColObject xs => length xs
  | ColInt64 xs => length xs
  | ColCategorical cat => length (codes cat)
  | ColDatetime xs => length xs
  end.

(** The sample when the weekday and the date cells have run. *)
Definition sample_parsed : DataFrame :=
  Eval vm_compute in
    match df1 ← set_day_categorical sample_raw; parse_date df1
    with Ok df => df | Raise _ => mkdf [] [] end.

(** An [object] column the [.str] accessor accepts: it holds a [str]
    whenever it holds an [int]. *)
Definition str_accessible (c : column) : Prop :=
  match c with
  | ColObject xs => existsb is_int xs = true -> existsb is_str xs = true
  | ColInt64 _ | ColCategorical _ | ColDatetime _ => True
  end.

Definition strip_entry (kc : str * column) : str * column :=
  (strip kc.1, strip_column kc.2).

(** The shape of a frame: per column, in order, its label and its number
    of rows. *)
Definition shape (df : DataFrame) : list (str * nat) :=
  map (fun kc : str * column => (kc.1, col_length kc.2)) (columns df).

(** The labels the cleaning cells look up after [whitespace_remover]. *)
Definition stripped_required : list str := numeric_columns ++ [(u "Comments")].

(** The integer a cell of the numeric column [l] is read as: the text is
    stripped; [-] is 0, in [Up to 1 hr] the text [1,678] is 167, any
    other text is read by [int()] and has to fit 64 bits.  A cell that is
    not a text has no reading. *)
Definition text_value (l : str) (x : obj) (v : Z) : Prop :=
  exists s, x = OStr s /\
    ((strip s = (u "-") /\ v = 0) \/
     (l = (u "Up to 1 hr") /\ strip s = (u "1,678") /\ v = 167) \/
     (py_int (strip s) = Some v /\ in_int64 v = true)).

(** What the anomaly correction does to the values of the column [l]. *)
Definition corrected (l : str) (vs : list Z) : list Z :=
  if str_eqb l (u "Total Exc Sub") then map floor0 vs else vs.

(** The timestamp a cell of the raw [Date] column is read as: NaT for a
    missing cell, for the empty text and for the texts that stand for
    NaT; for any other text the date it parses to. *)
Definition date_of_cell (x : obj) (d : option date) : Prop :=
  (x = ONaN /\ d = None) \/
  (exists s, x = OStr s /\ is_nat_string s = true /\ d = None) \/
  (exists s v, x = OStr s /\ is_nat_string s = false /\
               strptime s = Ok v /\ d = Some v /\
               valid_date v = true /\ in_bounds v = true).

(** * Properties *)

(** ** Equality of [str] *)

Lemma str_eqb_eq (a b : str) : str_eqb a b = true <-> a = b.
Proof.
  revert b. induction a as [|x a IH]; intros [|y b]; cbn [str_eqb];
    try (split; [discriminate|discriminate]); [tauto|].
  rewrite andb_true_iff, N.eqb_eq, IH. split.
  - intros [-> ->]. reflexivity.
  - intros [= -> ->]. auto.
Qed.

Lemma str_eqb_refl (a : str) : str_eqb a a = true.
Proof. apply str_eqb_eq. reflexivity. Qed.

Lemma str_eqb_neq (a b : str) : str_eqb a b = false <-> a <> b.
Proof.
  rewrite <- str_eqb_eq. destruct (str_eqb a b); split; congruence.
Qed.

Lemma str_eqb_spec (a b : str) : reflect (a = b) (str_eqb a b).
Proof.
  destruct (str_eqb a b) eqn:E; constructor.
  - apply str_eqb_eq. exact E.
  - apply str_eqb_neq. exact E.
Qed.

(** ** The result monad *)

Section Monad.
Context {A B : Type}.

Lemma bind_Ok (m : res A) (f : A -> res B) (b : B) :
  m ≫= f = Ok b <-> exists a, m = Ok a /\ f a = Ok b.
Proof.
  destruct m as [a|e]; simpl; split.
  - intros H. exists a. auto.
  - intros (a' & [= <-] & H). exact H.
  - discriminate.
  - intros (a' & [=] & _).
Qed.

Lemma fmap_Ok (m : res A) (f : A -> B) (b : B) :
  f <$> m = Ok b <-> exists a, m = Ok a /\ b = f a.
Proof.
  destruct m as [a|e]; simpl; split.
  - intros [= <-]. eauto.
  - intros (a' & [= <-] & ->). reflexivity.
  - discriminate.
  - intros (a' & [=] & _).
Qed.

Lemma traverse_Ok (f : A -> res B) (xs : list A) (ys : list B) :
  traverse f xs = Ok ys <-> Forall2 (fun x y => f x = Ok y) xs ys.
Proof.
  revert ys. induction xs as [|x xs IH]; intros ys; simpl.
  - split.
    + intros [= <-]. constructor.
    + intros H. inversion H. reflexivity.
  - destruct (f x) as [y|e] eqn:Hy; simpl.
    + destruct (traverse f xs) as [ys'|e] eqn:E; simpl.
      * split.
        -- intros [= <-]. constructor; [exact Hy|]. apply IH. reflexivity.
        -- intros H. inversion H as [|? y' ? ys'' Hy' Hys]; subst.
           apply IH in Hys. congruence.
      * split; [discriminate|].
        intros H. inversion H as [|? y' ? ys'' Hy' Hys]; subst.
        apply IH in Hys. discriminate.
    + split; [discriminate|].
      intros H. inversion H; subst. congruence.
Qed.

End Monad.

Ltac inv_res :=
  repeat match goal with
  | H : _ ≫= _ = Ok _ |- _ =>
      apply bind_Ok in H; destruct H as (? & ? & H)
  | H : _ <$> _ = Ok _ |- _ =>
      apply fmap_Ok in H; destruct H as (? & ? & H)
  | H : Ok ?a = Ok ?b |- _ =>
      let E := fresh "E" in assert (E : a = b) by congruence; clear H
  | H : Raise _ = Ok _ |- _ => discriminate H
  end.

(** ** Columns under their labels *)

Section Labels.
Implicit Types (l k : str) (c : column) (cs : list (str * column)).

Lemma eqb_label_refl l : str_eqb l l = true.
Proof. apply str_eqb_refl. Qed.

Lemma eqb_label_ne k l : k <> l -> str_eqb k l = false.
Proof. intros H. apply str_eqb_neq. exact H. Qed.

Lemma lookup_assign_eq l c cs : lookup_col l (assign_col l c cs) = Some c.
Proof.
  induction cs as [|[k c0] cs IH]; simpl.
  - rewrite eqb_label_refl. reflexivity.
  - destruct (str_eqb k l) eqn:E; simpl; rewrite E; auto.
Qed.

Lemma lookup_assign_ne l k c cs :
  k <> l -> lookup_col k (assign_col l c cs) = lookup_col k cs.
Proof.
  intros Hne. induction cs as [|[k0 c0] cs IH]; simpl.
  - rewrite eqb_label_ne by congruence. reflexivity.
  - destruct (str_eqb k0 l) eqn:E; simpl.
    + apply str_eqb_eq in E. subst k0.
      rewrite eqb_label_ne by congruence. reflexivity.
    + rewrite IH. reflexivity.
Qed.

Lemma assign_same l c cs : lookup_col l cs = Some c -> assign_col l c cs = cs.
Proof.
  induction cs as [|[k c0] cs IH]; simpl; [discriminate|].
  destruct (str_eqb k l) eqn:E.
  - intros [= ->]. reflexivity.
  - intros H. rewrite IH by exact H. reflexivity.
Qed.

Lemma assign_assign l c c' cs :
  assign_col l c' (assign_col l c cs) = assign_col l c' cs.
Proof.
  induction cs as [|[k c0] cs IH]; simpl.
  - rewrite eqb_label_refl. reflexivity.
  - destruct (str_eqb k l) eqn:E; simpl; rewrite E; [reflexivity|].
    f_equal. exact IH.
Qed.

Lemma lookup_col_In l c cs : lookup_col l cs = Some c -> (l, c) ∈ cs.
Proof.
  induction cs as [|[k c0] cs IH]; simpl; [discriminate|].
  destruct (str_eqb k l) eqn:E.
  - apply str_eqb_eq in E. intros [= ->]. subst. left.
  - intros H. right. auto.
Qed.

Lemma lookup_col_NoDup l c cs :
  NoDup cs.*1 -> (l, c) ∈ cs -> lookup_col l cs = Some c.
Proof.
  induction cs as [|[k c0] cs IH]; simpl; intros Hnd Hin.
  - inversion Hin.
  - apply NoDup_cons in Hnd as [Hk Hnd].
    apply elem_of_cons in Hin as [[= <- <-]|Hin].
    + rewrite eqb_label_refl. reflexivity.
    + destruct (str_eqb k l) eqn:E.
      * apply str_eqb_eq in E. subst k. exfalso. apply Hk.
        apply list_elem_of_fmap. exists (l, c). auto.
      * auto.
Qed.

Lemma lookup_col_map (f : column -> column) l cs :
  lookup_col l (map (fun kc : str * column => (kc.1, f kc.2)) cs)
  = f <$> lookup_col l cs.
Proof.
  induction cs as [|[k c0] cs IH]; simpl; [reflexivity|].
  destruct (str_eqb k l); [reflexivity|exact IH].
Qed.

Lemma getitem_Ok df l c :
  getitem df l = Ok c <-> lookup_col l (columns df) = Some c.
Proof.
  unfold getitem. destruct (lookup_col l (columns df)); split; congruence.
Qed.

(** What one cell of the notebook of the shape [df[l] = f(df[l])] does
    to the column under a label. *)
Lemma update_col_spec df l f df' :
  update_col df l f = Ok df' ->
  exists c c', lookup_col l (columns df) = Some c /\ f c = Ok c' /\
               df' = setitem df l c'.
Proof.
  unfold update_col. intros H. inv_res. subst.
  match goal with H : getitem _ _ = Ok _ |- _ => apply getitem_Ok in H end.
  eauto.
Qed.

Lemma update_col_same df l f df' k :
  update_col df l f = Ok df' -> k <> l ->
  lookup_col k (columns df') = lookup_col k (columns df).
Proof.
  intros H Hne. apply update_col_spec in H as (c & c' & _ & _ & ->).
  simpl. apply lookup_assign_ne. exact Hne.
Qed.

Lemma update_col_id df l f c :
  lookup_col l (columns df) = Some c -> f c = Ok c -> update_col df l f = Ok df.
Proof.
  intros Hc Hf. unfold update_col, getitem. rewrite Hc. simpl. rewrite Hf. simpl.
  unfold setitem. rewrite assign_same by exact Hc. destruct df; reflexivity.
Qed.
End Labels.

(** ** Coercion to [int64] *)

Section Coercion.
Implicit Types (l k : str) (c : column) (df : DataFrame).

Lemma astype_int64_result c c' :
  astype_int64 c = Ok c' -> exists xs, c' = ColInt64 xs.
Proof.
  destruct c as [xs|xs|cat|xs]; simpl.
  - intros H. inv_res. eauto.
  - intros [= <-]. eauto.
  - destruct (forallb _ _); [|discriminate]. intros H. inv_res. eauto.
  - intros [= <-]. eauto.
Qed.

Lemma coerce_all_other ls df df' k :
  coerce_all ls df = Ok df' -> k ∉ ls ->
  lookup_col k (columns df') = lookup_col k (columns df).
Proof.
  revert df. induction ls as [|l ls IH]; intros df; simpl.
  - intros [= <-] _. reflexivity.
  - intros H Hk. apply not_elem_of_cons in Hk as [Hne Hk].
    apply bind_Ok in H as (df1 & H1 & H).
    rewrite (IH _ H Hk). eapply update_col_same; eauto.
Qed.

(** Each label of the list is cast once, from the column the frame
    holds when the casts begin. *)
Lemma coerce_all_result ls df df' :
  NoDup ls -> coerce_all ls df = Ok df' ->
  forall l, l ∈ ls ->
    exists c xs, lookup_col l (columns df) = Some c /\
                 astype_int64 c = Ok (ColInt64 xs) /\
                 lookup_col l (columns df') = Some (ColInt64 xs).
Proof.
  revert df. induction ls as [|l0 ls IH]; intros df Hnd; simpl.
  - intros _ l Hl. inversion Hl.
  - apply NoDup_cons in Hnd as [Hl0 Hnd].
    intros H l Hl. apply bind_Ok in H as (df1 & H1 & H).
    apply elem_of_cons in Hl as [->|Hl].
    + pose proof H1 as H1'.
      apply update_col_spec in H1' as (c & c' & Hc & Hf & ->).
      destruct (astype_int64_result _ _ Hf) as [xs ->].
      exists c, xs. split; [exact Hc|]. split; [exact Hf|].
      rewrite (coerce_all_other _ _ _ _ H Hl0). simpl. apply lookup_assign_eq.
    + destruct (IH _ Hnd H l Hl) as (c & xs & Hc & Hf & Hr).
      exists c, xs. split; [|auto].
      rewrite <- Hc. symmetry. eapply update_col_same; eauto.
      intros ->. contradiction.
Qed.

Lemma coerced_later_NoDup : NoDup coerced_later.
Proof. apply (bool_decide_unpack _). vm_compute. exact I. Qed.

Lemma replace_dash_lookup df l :
  lookup_col l (columns (replace_dash df))
  = Series_replace dash <$> lookup_col l (columns df).
Proof. unfold replace_dash, DataFrame_replace. simpl. apply lookup_col_map. Qed.

Lemma repair_up_to_1hr_spec df df1 :
  repair_up_to_1hr df = Ok df1 ->
  exists c xs, lookup_col (u "Up to 1 hr") (columns df) = Some c /\
               astype_int64 (Series_replace typo_fix c) = Ok (ColInt64 xs) /\
               df1 = setitem df (u "Up to 1 hr") (ColInt64 xs).
Proof.
  unfold repair_up_to_1hr. intros H.
  apply bind_Ok in H as (df0 & H0 & H).
  apply update_col_spec in H0 as (c & c0 & Hc & [= <-] & ->).
  apply update_col_spec in H as (c1 & c' & Hc1 & Hf & ->).
  simpl in Hc1. rewrite lookup_assign_eq in Hc1. injection Hc1 as <-.
  destruct (astype_int64_result _ _ Hf) as [xs ->].
  exists c, xs. split; [exact Hc|]. split; [exact Hf|].
  unfold setitem. simpl. rewrite assign_assign. reflexivity.
Qed.

(** The value repair, column by column. *)
Lemma repair_numeric df df' l :
  repair df = Ok df' -> l ∈ numeric_columns ->
  exists c xs, lookup_col l (columns df) = Some c /\
               astype_int64 (Series_replace (repair_tokens l) c) = Ok (ColInt64 xs) /\
               lookup_col l (columns df') = Some (ColInt64 xs).
Proof.
  unfold repair. intros H Hl. apply bind_Ok in H as (df1 & H1 & H).
  apply repair_up_to_1hr_spec in H1 as (c & xs & Hc & Hf & ->).
  unfold numeric_columns in Hl. apply elem_of_cons in Hl as [->|Hl].
  - exists c, xs. split; [exact Hc|]. split; [exact Hf|].
    unfold coerce_numeric in H. rewrite (coerce_all_other _ _ _ _ H).
    + rewrite replace_dash_lookup. simpl. rewrite lookup_assign_eq. reflexivity.
    + apply (bool_decide_unpack _). vm_compute. exact I.
  - destruct (coerce_all_result _ _ _ coerced_later_NoDup H l Hl)
      as (c1 & ys & Hc1 & Hf1 & Hr).
    assert (Hne : l <> (u "Up to 1 hr")).
    { intros ->. revert Hl. apply (bool_decide_unpack _). vm_compute. exact I. }
    rewrite replace_dash_lookup in Hc1. simpl in Hc1.
    rewrite lookup_assign_ne in Hc1 by exact Hne.
    destruct (lookup_col l (columns df)) as [c0|] eqn:E; [|discriminate].
    injection Hc1 as <-.
    exists c0, ys. split; [reflexivity|]. split; [|exact Hr].
    unfold repair_tokens. rewrite eqb_label_ne by exact Hne. exact Hf1.
Qed.

Lemma repair_other df df' l :
  repair df = Ok df' -> l ∉ numeric_columns ->
  lookup_col l (columns df') = Series_replace dash <$> lookup_col l (columns df).
Proof.
  unfold repair. intros H Hl. apply bind_Ok in H as (df1 & H1 & H).
  apply repair_up_to_1hr_spec in H1 as (c & xs & Hc & Hf & ->).
  unfold numeric_columns in Hl. apply not_elem_of_cons in Hl as [Hne Hl].
  unfold coerce_numeric in H. rewrite (coerce_all_other _ _ _ _ H Hl).
  rewrite replace_dash_lookup. simpl. rewrite lookup_assign_ne by exact Hne.
  reflexivity.
Qed.
End Coercion.

(** ** [whitespace_remover] and the cells before it *)

Section Strip.
Implicit Types (l k : str) (c : column) (df : DataFrame).

Lemma In_assign_ne l k c c' cs :
  (k, c) ∈ cs -> k <> l -> (k, c) ∈ assign_col l c' cs.
Proof.
  intros Hin Hne. induction cs as [|[k0 c0] cs IH]; simpl.
  - inversion Hin.
  - apply elem_of_cons in Hin as [[= <- <-]|Hin].
    + rewrite eqb_label_ne by exact Hne. left.
    + destruct (str_eqb k0 l); right; auto.
Qed.

Lemma update_col_In df l f df' k c :
  update_col df l f = Ok df' -> (k, c) ∈ columns df -> k <> l ->
  (k, c) ∈ columns df'.
Proof.
  intros H Hin Hne. apply update_col_spec in H as (c0 & c1 & _ & _ & ->).
  simpl. apply In_assign_ne; assumption.
Qed.

Lemma update_col_result df l f df' :
  update_col df l f = Ok df' ->
  exists c c', lookup_col l (columns df) = Some c /\ f c = Ok c' /\
               lookup_col l (columns df') = Some c'.
Proof.
  intros H. apply update_col_spec in H as (c & c' & Hc & Hf & ->).
  exists c, c'. simpl. rewrite lookup_assign_eq. auto.
Qed.

Lemma str_strip_Ok xs ys : str_strip xs = Ok ys -> ys = map strip_obj xs.
Proof.
  unfold str_strip. destruct (_ && _); [discriminate|].
  intros [= <-]. reflexivity.
Qed.

Lemma strip_if_object_label kc kc' :
  strip_if_object kc = Ok kc' -> kc'.1 = kc.1.
Proof.
  unfold strip_if_object. destruct kc as [k [xs|xs|cat|xs]]; simpl;
    [destruct (str_strip xs); simpl|..]; intros [= <-] || discriminate;
    reflexivity.
Qed.

Lemma traverse_strip_labels cs cs' :
  traverse strip_if_object cs = Ok cs' -> cs'.*1 = cs.*1.
Proof.
  rewrite traverse_Ok. induction 1 as [|kc kc' cs cs' H _ IH]; [reflexivity|].
  rewrite !fmap_cons. f_equal; [eapply strip_if_object_label; eauto|exact IH].
Qed.

(** The frame after [whitespace_remover]: every column is found again
    under its stripped label. *)
Lemma whitespace_remover_lookup df df' k c :
  whitespace_remover df = Ok df' -> (k, c) ∈ columns df ->
  exists c', strip_if_object (strip k, c) = Ok (strip k, c') /\
             lookup_col (strip k) (columns df') = Some c'.
Proof.
  unfold whitespace_remover. intros H Hin.
  destruct (decide _) as [Hnd|]; [|discriminate].
  apply bind_Ok in H as (cs' & Hcs & [= <-]). simpl.
  pose proof (traverse_strip_labels _ _ Hcs) as Hlab.
  apply traverse_Ok in Hcs.
  assert (Hin' : (strip k, c) ∈
            map (fun kc : str * column => (strip kc.1, kc.2)) (columns df)).
  { apply list_elem_of_fmap. exists (k, c). auto. }
  destruct (proj1 (list_elem_of_lookup _ _) Hin') as [i Hi].
  destruct (Forall2_lookup_l _ _ _ _ _ Hcs Hi) as ([k' c'] & Hi' & Hs).
  pose proof (strip_if_object_label _ _ Hs) as Hk. simpl in Hk. subst k'.
  exists c'. split; [exact Hs|].
  apply lookup_col_NoDup.
  - rewrite Hlab. exact Hnd.
  - apply list_elem_of_lookup. eauto.
Qed.

End Strip.

(** ** The cells after [whitespace_remover] *)

Section Tail.
Implicit Types (l k : str) (c : column) (df : DataFrame).

Lemma not_numeric_Comments : (u "Comments") ∉ numeric_columns.
Proof. apply (bool_decide_unpack _). vm_compute. exact I. Qed.

Lemma numeric_Total : (u "Total Exc Sub") ∈ numeric_columns.
Proof. apply (bool_decide_unpack _). vm_compute. exact I. Qed.

(** After the value repair and the comments cell the ten numeric
    columns are [int64] columns. *)
Lemma tidy_tail_numeric df3 df4 df5 l :
  repair df3 = Ok df4 -> normalize_comments df4 = Ok df5 ->
  l ∈ numeric_columns ->
  exists c xs, lookup_col l (columns df3) = Some c /\
               astype_int64 (Series_replace (repair_tokens l) c) = Ok (ColInt64 xs) /\
               lookup_col l (columns df5) = Some (ColInt64 xs).
Proof.
  intros H4 H5 Hl.
  destruct (repair_numeric _ _ _ H4 Hl) as (c & xs & Hc & Hf & Hr).
  exists c, xs. split; [exact Hc|]. split; [exact Hf|].
  rewrite <- Hr. eapply update_col_same; [exact H5|].
  intros ->. exact (not_numeric_Comments Hl).
Qed.

Lemma floor_total_spec df5 df ys :
  lookup_col (u "Total Exc Sub") (columns df5) = Some (ColInt64 ys) ->
  floor_total df5 = Ok df ->
  lookup_col (u "Total Exc Sub") (columns df) = Some (ColInt64 (map floor0 ys)) /\
  forall l, l <> (u "Total Exc Sub") ->
            lookup_col l (columns df) = lookup_col l (columns df5).
Proof.
  intros Hy H. split.
  - apply update_col_result in H as (c & c' & Hc & Hf & Hr).
    rewrite Hy in Hc. injection Hc as <-. simpl in Hf. injection Hf as <-.
    exact Hr.
  - intros l Hne. eapply update_col_same; eauto.
Qed.

Lemma tail_other df3 df4 df5 df l :
  repair df3 = Ok df4 -> normalize_comments df4 = Ok df5 ->
  floor_total df5 = Ok df ->
  l ∉ numeric_columns -> l <> (u "Comments") ->
  lookup_col l (columns df) = Series_replace dash <$> lookup_col l (columns df3).
Proof.
  intros H4 H5 H6 Hl Hc.
  rewrite (update_col_same _ _ _ _ l H6).
  - rewrite (update_col_same _ _ _ _ l H5 Hc). apply repair_other; assumption.
  - intros ->. exact (Hl numeric_Total).
Qed.

Lemma floor0_nonneg z : 0 <= floor0 z.
Proof. unfold floor0. destruct (Z.ltb_spec z 0); lia. Qed.

Lemma floor0_neg z : z < 0 -> floor0 z = 0.
Proof. unfold floor0. destruct (Z.ltb_spec z 0); lia. Qed.

Lemma floor0_id z : 0 <= z -> floor0 z = z.
Proof. unfold floor0. destruct (Z.ltb_spec z 0); lia. Qed.
End Tail.

Lemma tidy_stages raw df5 :
  tidy raw = Ok df5 ->
  exists df1 df2 df3 df4,
    set_day_categorical raw = Ok df1 /\ parse_date df1 = Ok df2 /\
    whitespace_remover df2 = Ok df3 /\ repair df3 = Ok df4 /\
    normalize_comments df4 = Ok df5.
Proof.
  unfold tidy. intros H.
  apply bind_Ok in H as (df1 & H1 & H). apply bind_Ok in H as (df2 & H2 & H).
  apply bind_Ok in H as (df3 & H3 & H). apply bind_Ok in H as (df4 & H4 & H).
  exists df1, df2, df3, df4. auto.
Qed.

Lemma tidy_numeric raw df5 l :
  tidy raw = Ok df5 -> l ∈ numeric_columns ->
  exists xs, lookup_col l (columns df5) = Some (ColInt64 xs).
Proof.
  intros H Hl. apply tidy_stages in H as (df1 & df2 & df3 & df4 & _ & _ & _ & H4 & H5).
  destruct (tidy_tail_numeric _ _ _ _ H4 H5 Hl) as (c & xs & _ & _ & Hr). eauto.
Qed.

(** C1.  After the anomaly correction the [Total Exc Sub] column is the
    column of before it with every value floored at 0: every row holds a
    value that is at least 0, a negative value (the [-1] of the data among
    them) has become 0, a value that was not negative is the same. *)
Theorem total_exc_sub_floored (raw df : DataFrame) :
  clean raw = Ok df ->
  exists df5 ys,
    tidy raw = Ok df5 /\ floor_total df5 = Ok df /\
    getitem df5 (u "Total Exc Sub") = Ok (ColInt64 ys) /\
    getitem df (u "Total Exc Sub") = Ok (ColInt64 (map floor0 ys)) /\
    Forall (fun z => 0 <= z) (map floor0 ys) /\
    (forall y, y < 0 -> floor0 y = 0) /\ floor0 (-1) = 0 /\
    (forall y, 0 <= y -> floor0 y = y).
Proof.
  unfold clean. intros H. apply bind_Ok in H as (df5 & H5 & H).
  destruct (tidy_numeric _ _ _ H5 numeric_Total) as [ys Hy].
  destruct (floor_total_spec _ _ _ Hy H) as [Hr _].
  exists df5, ys. rewrite !getitem_Ok.
  repeat split; auto using floor0_neg, floor0_id.
  apply Forall_forall. intros z Hz. apply list_elem_of_fmap in Hz as (y & -> & _).
  apply floor0_nonneg.
Qed.

Lemma total_exc_sub_floored_witness :
  clean sample_raw = Ok sample_clean /\
  exists df5 ys,
    tidy sample_raw = Ok df5 /\ floor_total df5 = Ok sample_clean /\
    getitem df5 (u "Total Exc Sub") = Ok (ColInt64 ys) /\
    getitem sample_clean (u "Total Exc Sub") = Ok (ColInt64 (map floor0 ys)) /\
    Forall (fun z => 0 <= z) (map floor0 ys) /\
    (forall y, y < 0 -> floor0 y = 0) /\ floor0 (-1) = 0 /\
    (forall y, 0 <= y -> floor0 y = y).
Proof.
  split; [vm_compute; reflexivity|].
  apply (total_exc_sub_floored sample_raw sample_clean).
  vm_compute. reflexivity.
Defined.

(** ** The ten numeric columns *)

(** C3, as stated, fails: a negative count in a column other than
    [Total Exc Sub] is cast and kept.  In the sample the subscribers of
    the third row, [-5], are still [-5] in the cleaned frame. *)
Lemma numeric_negative_kept :
  clean sample_raw = Ok sample_clean /\
  getitem sample_clean (u "Subscribers") = Ok (ColInt64 [40; 0; -5; 12]) /\
  ~ numeric_nonneg sample_clean.
Proof.
  split; [vm_compute; reflexivity|]. split; [vm_compute; reflexivity|].
  intros H. destruct (H (u "Subscribers")) as (xs & Hx & Hall).
  - apply (bool_decide_unpack _). vm_compute. exact I.
  - vm_compute in Hx. injection Hx as <-.
    apply Forall_cons in Hall as [_ Hall]. apply Forall_cons in Hall as [_ Hall].
    apply Forall_cons in Hall as [Hneg _]. lia.
Qed.

(** C3, amended.  In the cleaned frame each of the ten numeric columns is
    an [int64] column, so every row holds an integer there; the values of
    [Total Exc Sub] are at least 0. *)
Theorem numeric_columns_integer (raw df : DataFrame) :
  clean raw = Ok df ->
  forall l, l ∈ numeric_columns ->
    exists xs, getitem df l = Ok (ColInt64 xs) /\
               (l = (u "Total Exc Sub") -> Forall (fun z => 0 <= z) xs).
Proof.
  unfold clean. intros H l Hl. apply bind_Ok in H as (df5 & H5 & H).
  destruct (tidy_numeric _ _ _ H5 numeric_Total) as [ys Hy].
  destruct (floor_total_spec _ _ _ Hy H) as [Hr Ho].
  destruct (decide (l = (u "Total Exc Sub"))) as [->|Hne].
  - exists (map floor0 ys). rewrite getitem_Ok. split; [exact Hr|].
    intros _. apply Forall_forall. intros z Hz.
    apply list_elem_of_fmap in Hz as (y & -> & _). apply floor0_nonneg.
  - destruct (tidy_numeric _ _ _ H5 Hl) as [xs Hx].
    exists xs. rewrite getitem_Ok, (Ho l Hne). split; [exact Hx|].
    intros ->. contradiction.
Qed.

Lemma numeric_columns_integer_witness :
  clean sample_raw = Ok sample_clean /\
  forall l, l ∈ numeric_columns ->
    exists xs, getitem sample_clean l = Ok (ColInt64 xs) /\
               (l = (u "Total Exc Sub") -> Forall (fun z => 0 <= z) xs).
Proof.
  split; [vm_compute; reflexivity|].
  apply (numeric_columns_integer sample_raw sample_clean).
  vm_compute. reflexivity.
Defined.

(** ** The weekday column *)

Section Weekday.
Implicit Types (cats : list str) (s : str).

Lemma get_indexer_lower cats s : -1 <= get_indexer cats s.
Proof.
  induction cats as [|k cats IH]; simpl; [lia|].
  destruct (str_eqb k s); [lia|].
  destruct (Z.ltb_spec (get_indexer cats s) 0); lia.
Qed.

Lemma cat_value_indexer cats s :
  cat_value cats (get_indexer cats s)
  = if bool_decide (s ∈ cats) then Some s else None.
Proof.
  induction cats as [|k cats IH]; [reflexivity|].
  simpl get_indexer. destruct (str_eqb k s) eqn:E.
  - apply str_eqb_eq in E. subst k.
    rewrite bool_decide_eq_true_2 by left. reflexivity.
  - apply str_eqb_neq in E.
    assert (Hin : bool_decide (s ∈ k :: cats) = bool_decide (s ∈ cats)).
    { apply bool_decide_ext. rewrite elem_of_cons.
      split; [intros [->|Hs]; [contradiction|exact Hs]|auto]. }
    rewrite Hin, <- IH. clear IH Hin.
    pose proof (get_indexer_lower cats s) as Hlow.
    unfold cat_value.
    destruct (Z.ltb_spec (get_indexer cats s) 0) as [Hneg|Hpos]; [reflexivity|].
    destruct (Z.ltb_spec (get_indexer cats s + 1) 0); [lia|].
    replace (Z.to_nat (get_indexer cats s + 1))
      with (S (Z.to_nat (get_indexer cats s))) by lia.
    reflexivity.
Qed.

Lemma Categorical_values (c : column) cats ord :
  cat_values (Categorical c cats ord) = map (as_category cats) (cells c).
Proof.
  destruct c as [xs|xs|cat|xs]; unfold cat_values; simpl; rewrite !map_map;
    apply map_ext; intros x.
  - destruct x as [s| |]; simpl; [apply cat_value_indexer|reflexivity..].
  - reflexivity.
  - destruct x as [s|]; simpl; [apply cat_value_indexer|reflexivity].
  - reflexivity.
Qed.

Lemma as_category_in cats (x : cell) s :
  as_category cats x = Some s -> s ∈ cats.
Proof.
  destruct x as [[t| |]| |[t|]|]; simpl; try discriminate;
    destruct (bool_decide (t ∈ cats)) eqn:E; try discriminate;
    intros [= <-]; apply bool_decide_eq_true in E; exact E.
Qed.

Lemma day_order_positions (i j : nat) a b :
  day_categories !! i = Some a -> day_categories !! j = Some b ->
  cat_lt day_categories a b = bool_decide (i < j)%nat.
Proof.
  intros Ha Hb.
  destruct i as [|[|[|[|[|[|[|i]]]]]]]; simpl in Ha; try discriminate Ha;
    injection Ha as <-;
    (destruct j as [|[|[|[|[|[|[|j]]]]]]]; simpl in Hb; try discriminate Hb;
     injection Hb as <-; vm_compute; reflexivity).
Qed.
End Weekday.

(** ** Columns the later cells leave alone *)

Section Kept.
Implicit Types (l k : str) (c : column) (df : DataFrame).

Lemma typed_column_strip l c :
  typed_column c -> strip_if_object (l, c) = Ok (l, c).
Proof. destruct c; simpl; intros []; reflexivity. Qed.

Lemma typed_column_replace m c : typed_column c -> Series_replace m c = c.
Proof. destruct c; simpl; intros []; reflexivity. Qed.

(** A categorical or datetime column under a label that is neither
    numeric nor [Comments] is in the cleaned frame what it is before
    [whitespace_remover]. *)
Lemma typed_column_kept df2 df3 df4 df5 df l c :
  whitespace_remover df2 = Ok df3 -> repair df3 = Ok df4 ->
  normalize_comments df4 = Ok df5 -> floor_total df5 = Ok df ->
  strip l = l -> l ∉ numeric_columns -> l <> (u "Comments") ->
  typed_column c -> lookup_col l (columns df2) = Some c ->
  lookup_col l (columns df) = Some c.
Proof.
  intros H3 H4 H5 H6 Hs Hn Hc Ht Hl.
  apply lookup_col_In in Hl.
  destruct (whitespace_remover_lookup _ _ _ _ H3 Hl) as (c' & Hc' & Hl3).
  rewrite typed_column_strip in Hc' by exact Ht. injection Hc' as <-.
  rewrite Hs in Hl3.
  rewrite (tail_other _ _ _ _ _ H4 H5 H6 Hn Hc), Hl3. simpl.
  rewrite typed_column_replace by exact Ht. reflexivity.
Qed.

Lemma clean_stages raw df :
  clean raw = Ok df ->
  exists df1 df2 df3 df4 df5,
    set_day_categorical raw = Ok df1 /\ parse_date df1 = Ok df2 /\
    whitespace_remover df2 = Ok df3 /\ repair df3 = Ok df4 /\
    normalize_comments df4 = Ok df5 /\ floor_total df5 = Ok df.
Proof.
  unfold clean. intros H. apply bind_Ok in H as (df5 & H5 & H).
  apply tidy_stages in H5 as (df1 & df2 & df3 & df4 & ?).
  exists df1, df2, df3, df4, df5. intuition.
Qed.

Lemma clean_Day raw df :
  clean raw = Ok df ->
  exists c, lookup_col (u "Day") (columns raw) = Some c /\
            lookup_col (u "Day") (columns df)
            = Some (ColCategorical (Categorical c day_categories true)).
Proof.
  intros H.
  apply clean_stages in H as (df1 & df2 & df3 & df4 & df5 & H1 & H2 & H3 & H4 & H5 & H6).
  apply update_col_result in H1 as (c & c' & Hc & [= <-] & Hr).
  exists c. split; [exact Hc|].
  apply (typed_column_kept df2 df3 df4 df5 df (u "Day") _ H3 H4 H5 H6).
  - reflexivity.
  - apply (bool_decide_unpack _). vm_compute. exact I.
  - discriminate.
  - exact I.
  - rewrite <- Hr. eapply update_col_same; [exact H2|]. discriminate.
Qed.
End Kept.

(** C10.  The conversion of the [Day] column does not raise where the
    column exists; row by row, a cell that holds one of the seven labels
    keeps it and any other cell (another text, a label with blanks around
    it, a missing value) becomes the missing value. *)
Theorem day_outside_domain_is_null (df : DataFrame) (c : column) :
  getitem df (u "Day") = Ok c ->
  exists df' cat,
    set_day_categorical df = Ok df' /\
    getitem df' (u "Day") = Ok (ColCategorical cat) /\
    cat_values cat = map (as_category day_categories) (cells c) /\
    (forall i s, cells c !! i = Some (CObj (OStr s)) ->
       (s ∈ day_categories -> cat_values cat !! i = Some (Some s)) /\
       (s ∉ day_categories -> cat_values cat !! i = Some None)) /\
    (forall i, cells c !! i = Some (CObj ONaN) -> cat_values cat !! i = Some None).
Proof.
  intros Hc. apply getitem_Ok in Hc.
  exists (setitem df (u "Day") (ColCategorical (Categorical c day_categories true))),
         (Categorical c day_categories true).
  split; [unfold set_day_categorical, update_col, getitem; rewrite Hc; reflexivity|].
  split; [apply getitem_Ok; simpl; apply lookup_assign_eq|].
  rewrite Categorical_values. split; [reflexivity|].
  split.
  - intros i s Hi. rewrite list_lookup_fmap, Hi. simpl. split; intros Hs.
    + rewrite bool_decide_eq_true_2 by exact Hs. reflexivity.
    + rewrite bool_decide_eq_false_2 by exact Hs. reflexivity.
  - intros i Hi. rewrite list_lookup_fmap, Hi. reflexivity.
Qed.

Lemma day_outside_domain_is_null_witness :
  getitem sample_raw (u "Day")
  = Ok (ColObject [OStr (u "Wed"); OStr (u "Mon"); OStr (u "Tue "); OStr (u "Sat")]) /\
  exists df' cat,
    set_day_categorical sample_raw = Ok df' /\
    getitem df' (u "Day") = Ok (ColCategorical cat) /\
    cat_values cat = [Some (u "Wed"); Some (u "Mon"); None; Some (u "Sat")].
Proof.
  split; [reflexivity|].
  destruct (day_outside_domain_is_null sample_raw _ eq_refl)
    as (df' & cat & H1 & H2 & H3 & _).
  exists df', cat. split; [exact H1|]. split; [exact H2|].
  rewrite H3. vm_compute. reflexivity.
Defined.

(** C8.  In the cleaned frame [Day] is the ordered categorical with the
    categories Mon, Tue, Wed, Thu, Fri, Sat, Sun in this order: a row
    whose input is one of the seven labels holds that label, every value
    of the column is one of the seven labels (or is missing), and the
    order of the categories is the order of the list, from Mon, the
    first, to Sun, the last. *)
Theorem day_column_domain (raw df : DataFrame) :
  clean raw = Ok df ->
  exists c cat,
    getitem raw (u "Day") = Ok c /\ getitem df (u "Day") = Ok (ColCategorical cat) /\
    categories cat = day_categories /\ ordered cat = true /\
    (forall i s, cells c !! i = Some (CObj (OStr s)) -> s ∈ day_categories ->
       cat_values cat !! i = Some (Some s)) /\
    (forall i v, cat_values cat !! i = Some v ->
       v = None \/ exists s, v = Some s /\ s ∈ day_categories) /\
    head (categories cat) = Some (u "Mon") /\ last (categories cat) = Some (u "Sun") /\
    (forall (i j : nat) a b,
       categories cat !! i = Some a -> categories cat !! j = Some b ->
       cat_lt (categories cat) a b = bool_decide (i < j)%nat).
Proof.
  intros H. destruct (clean_Day _ _ H) as (c & Hc & Hr).
  exists c, (Categorical c day_categories true). rewrite !getitem_Ok.
  split; [exact Hc|]. split; [exact Hr|].
  assert (Hcat : categories (Categorical c day_categories true) = day_categories)
    by (destruct c; reflexivity).
  assert (Hord : ordered (Categorical c day_categories true) = true)
    by (destruct c; reflexivity).
  rewrite Hcat, Hord, Categorical_values.
  split; [reflexivity|]. split; [reflexivity|]. split.
  { intros i s Hi Hs. rewrite list_lookup_fmap, Hi. simpl.
    rewrite bool_decide_eq_true_2 by exact Hs. reflexivity. }
  split.
  { intros i v Hv. rewrite list_lookup_fmap in Hv.
    destruct (cells c !! i) as [x|]; [|discriminate]. injection Hv as <-.
    destruct (as_category day_categories x) as [s|] eqn:E; [|auto].
    right. exists s. split; [reflexivity|]. eapply as_category_in; eauto. }
  split; [reflexivity|]. split; [reflexivity|].
  apply day_order_positions.
Qed.

Lemma day_column_domain_witness :
  clean sample_raw = Ok sample_clean /\
  exists cat, getitem sample_clean (u "Day") = Ok (ColCategorical cat) /\
              categories cat = day_categories /\
              cat_values cat = [Some (u "Wed"); Some (u "Mon"); None; Some (u "Sat")].
Proof.
  split; [vm_compute; reflexivity|].
  destruct (day_column_domain sample_raw sample_clean)
    as (c & cat & _ & Hr & Hcat & _); [vm_compute; reflexivity|].
  exists cat. split; [exact Hr|]. split; [exact Hcat|].
  vm_compute in Hr. injection Hr as <-. reflexivity.
Defined.

(** ** Replacement of tokens *)

Section Tokens.
Implicit Types (o : obj) (c : column) (df : DataFrame).

Lemma replace_dash_obj o :
  replace_obj dash o = if decide (o = OStr (u "-")) then OInt 0 else o.
Proof.
  destruct o as [s| |]; unfold dash; cbn [replace_obj find_token];
    try (case_decide; [discriminate|reflexivity]).
  destruct (str_eqb_spec (u "-") s) as [<-|Hne].
  - rewrite decide_True by reflexivity. reflexivity.
  - rewrite decide_False by congruence. reflexivity.
Qed.

Lemma replace_typo_obj o :
  replace_obj typo_fix o
  = if decide (o = OStr (u "-")) then OInt 0
    else if decide (o = OStr (u "1,678")) then OInt 167 else o.
Proof.
  destruct o as [s| |]; unfold typo_fix; cbn [replace_obj find_token];
    try (repeat case_decide; congruence).
  destruct (str_eqb_spec (u "-") s) as [<-|Hne].
  - rewrite decide_True by reflexivity. reflexivity.
  - rewrite decide_False by congruence.
    destruct (str_eqb_spec (u "1,678") s) as [<-|Hne'].
    + rewrite decide_True by reflexivity. reflexivity.
    + rewrite decide_False by congruence. reflexivity.
Qed.

Lemma replace_zero_obj o :
  replace_obj zero_token o = if decide (o = OStr (u "0")) then ONaN else o.
Proof.
  destruct o as [s| |]; unfold zero_token; cbn [replace_obj find_token];
    try (case_decide; [discriminate|reflexivity]).
  destruct (str_eqb_spec (u "0") s) as [<-|Hne].
  - rewrite decide_True by reflexivity. reflexivity.
  - rewrite decide_False by congruence. reflexivity.
Qed.

Lemma repair_up_to_1hr_other df df1 l :
  repair_up_to_1hr df = Ok df1 -> l <> (u "Up to 1 hr") ->
  lookup_col l (columns df1) = lookup_col l (columns df).
Proof.
  intros H Hne. apply repair_up_to_1hr_spec in H as (c & xs & _ & _ & ->).
  simpl. apply lookup_assign_ne. exact Hne.
Qed.

Lemma getitem_lookup_eq df df' l :
  lookup_col l (columns df') = lookup_col l (columns df) ->
  getitem df' l = getitem df l.
Proof. unfold getitem. intros ->. reflexivity. Qed.
End Tokens.

(** C6.  The replacement of [-] rewrites a cell exactly when the cell is
    the token [-] as a whole, and then to the integer 0; the fix of
    [Up to 1 hr] rewrites [-] to 0 and [1,678] to 167 and nothing else,
    and it touches no other column; the replacement in the whole frame
    is the replacement of [-] in each column.  So a text that only
    contains [-], and a number written with a comma that is not
    [1,678] or not in [Up to 1 hr], stay as they are (and a cast of such
    a number raises). *)
Theorem replacement_law :
  (forall o, replace_obj dash o = if decide (o = OStr (u "-")) then OInt 0 else o) /\
  (forall o, replace_obj typo_fix o
             = if decide (o = OStr (u "-")) then OInt 0
               else if decide (o = OStr (u "1,678")) then OInt 167 else o) /\
  (forall xs, Series_replace dash (ColObject xs) = ColObject (map (replace_obj dash) xs)) /\
  (forall xs, Series_replace typo_fix (ColObject xs)
              = ColObject (map (replace_obj typo_fix) xs)) /\
  (forall df l, getitem (replace_dash df) l = Series_replace dash <$> getitem df l) /\
  (forall df df1,
     repair_up_to_1hr df = Ok df1 ->
     exists c xs,
       getitem df (u "Up to 1 hr") = Ok c /\
       astype_int64 (Series_replace typo_fix c) = Ok (ColInt64 xs) /\
       getitem df1 (u "Up to 1 hr") = Ok (ColInt64 xs) /\
       forall l, l <> (u "Up to 1 hr") -> getitem df1 l = getitem df l) /\
  replace_obj dash (OStr (u "-5")) = OStr (u "-5") /\
  replace_obj dash (OStr (u "Mon-Fri")) = OStr (u "Mon-Fri") /\
  replace_obj dash (OStr (u "1,678")) = OStr (u "1,678") /\
  replace_obj typo_fix (OStr (u "2,345")) = OStr (u "2,345") /\
  astype_int64 (ColObject [OStr (u "2,345")]) = Raise ValueError.
Proof.
  split; [exact replace_dash_obj|]. split; [exact replace_typo_obj|].
  split; [reflexivity|]. split; [reflexivity|].
  split.
  { intros df l. unfold getitem. rewrite replace_dash_lookup.
    destruct (lookup_col l (columns df)); reflexivity. }
  split.
  { intros df df1 H. pose proof (fun l => repair_up_to_1hr_other _ _ l H) as Ho.
    apply repair_up_to_1hr_spec in H as (c & xs & Hc & Hf & ->).
    exists c, xs. rewrite !getitem_Ok. split; [exact Hc|]. split; [exact Hf|].
    split; [simpl; apply lookup_assign_eq|].
    intros l Hl. apply getitem_lookup_eq. apply Ho. exact Hl. }
  repeat split; reflexivity.
Qed.

Lemma replacement_law_witness :
  repair_up_to_1hr sample_stripped
  = Ok (setitem sample_stripped (u "Up to 1 hr") (ColInt64 [120; 0; 167; 95])) /\
  exists c xs,
    getitem sample_stripped (u "Up to 1 hr") = Ok c /\
    astype_int64 (Series_replace typo_fix c) = Ok (ColInt64 xs) /\
    getitem (setitem sample_stripped (u "Up to 1 hr") (ColInt64 [120; 0; 167; 95]))
            (u "Up to 1 hr") = Ok (ColInt64 xs).
Proof.
  split; [vm_compute; reflexivity|].
  destruct replacement_law as (_ & _ & _ & _ & _ & H & _).
  destruct (H sample_stripped _ eq_refl) as (c & xs & Hc & Hf & Hr & _).
  exists c, xs. auto.
Defined.

(** ** The comments column *)

Lemma clean_Comments raw df k xs :
  clean raw = Ok df -> (k, ColObject xs) ∈ columns raw -> strip k = (u "Comments") ->
  lookup_col (u "Comments") (columns df)
  = Some (ColObject (map (fun o => replace_obj zero_token
                                     (replace_obj dash (strip_obj o))) xs)).
Proof.
  intros H Hin Hk.
  apply clean_stages in H as (df1 & df2 & df3 & df4 & df5 & H1 & H2 & H3 & H4 & H5 & H6).
  assert (Hin2 : (k, ColObject xs) ∈ columns df2).
  { eapply update_col_In; [exact H2| |intros ->; vm_compute in Hk; discriminate].
    eapply update_col_In; [exact H1|exact Hin|].
    intros ->; vm_compute in Hk; discriminate. }
  destruct (whitespace_remover_lookup _ _ _ _ H3 Hin2) as (c' & Hc' & Hl3).
  rewrite Hk in Hc', Hl3. unfold strip_if_object in Hc'. simpl in Hc'.
  destruct (str_strip xs) as [ys|] eqn:Es; [|discriminate].
  apply str_strip_Ok in Es. subst ys. injection Hc' as <-.
  pose proof (repair_other _ _ (u "Comments") H4 not_numeric_Comments) as Hl4.
  rewrite Hl3 in Hl4. simpl in Hl4.
  apply update_col_result in H5 as (c & c5 & Hc & [= <-] & Hl5).
  rewrite Hl4 in Hc. injection Hc as <-.
  rewrite (update_col_same _ _ _ _ (u "Comments") H6) by discriminate.
  rewrite Hl5. simpl. rewrite !map_map. reflexivity.
Qed.

(** C2, as stated, fails.  In the sample the comment [" Car park closed "]
    comes out without the blanks around it, and the comment ["-"] comes
    out as the integer 0: neither is kept as it was, and the second is
    not null. *)
Lemma comment_not_verbatim :
  getitem sample_raw (u "Comments")
  = Ok (ColObject [OStr (u "0"); OStr (u "-"); OStr (u " Car park closed "); ONaN]) /\
  clean sample_raw = Ok sample_clean /\
  getitem sample_clean (u "Comments")
  = Ok (ColObject [ONaN; OInt 0; OStr (u "Car park closed"); ONaN]) /\
  ~ (forall raw df xs ys i s,
       clean raw = Ok df ->
       getitem raw (u "Comments") = Ok (ColObject xs) ->
       getitem df (u "Comments") = Ok (ColObject ys) ->
       xs !! i = Some (OStr s) -> s <> (u "0") -> ys !! i = Some (OStr s)).
Proof.
  split; [reflexivity|]. split; [vm_compute; reflexivity|].
  split; [vm_compute; reflexivity|].
  intros H.
  specialize (H sample_raw sample_clean _ _ 1%nat (u "-")
                ltac:(vm_compute; reflexivity) eq_refl
                ltac:(vm_compute; reflexivity) eq_refl).
  simpl in H. specialize (H ltac:(discriminate)). discriminate H.
Qed.

(** C2, amended.  The comments cell replaces exactly the cells that are
    the string ["0"] by null and leaves every other cell of the column as
    it is.  Through the whole of the cleaning a missing comment stays
    null, and a comment text is stripped of the whitespace around it:
    the text whose stripped form is ["0"] ends as null, and any other
    text, unless its stripped form is the token [-], ends as its
    stripped form. *)
Theorem comments_normalized (raw df : DataFrame) (k : str) (xs : list obj) :
  clean raw = Ok df -> (k, ColObject xs) ∈ columns raw -> strip k = (u "Comments") ->
  (forall zs, Series_replace zero_token (ColObject zs)
              = ColObject (map (fun o => if decide (o = OStr (u "0")) then ONaN else o) zs)) /\
  exists ys,
    getitem df (u "Comments") = Ok (ColObject ys) /\ length ys = length xs /\
    forall i,
      (xs !! i = Some ONaN -> ys !! i = Some ONaN) /\
      (forall s, xs !! i = Some (OStr s) -> strip s <> (u "-") ->
         ys !! i = Some (if decide (strip s = (u "0")) then ONaN else OStr (strip s))).
Proof.
  intros H Hin Hk. split.
  { intros zs. simpl. f_equal. apply map_ext. exact replace_zero_obj. }
  eexists. rewrite getitem_Ok. split; [eapply clean_Comments; eauto|].
  split; [apply length_map|].
  intros i. rewrite list_lookup_fmap. split.
  - intros ->. reflexivity.
  - intros s -> Hs.
    change (Some (replace_obj zero_token (replace_obj dash (OStr (strip s))))
            = Some (if decide (strip s = (u "0")) then ONaN else OStr (strip s))).
    rewrite replace_dash_obj.
    rewrite decide_False by congruence. rewrite replace_zero_obj.
    destruct (decide (strip s = (u "0"))) as [E|E].
    + rewrite decide_True by congruence. reflexivity.
    + rewrite decide_False by congruence. reflexivity.
Qed.

Lemma comments_normalized_witness :
  clean sample_raw = Ok sample_clean /\
  ((u "Comments"), ColObject [OStr (u "0"); OStr (u "-"); OStr (u " Car park closed "); ONaN])
    ∈ columns sample_raw /\
  strip (u "Comments") = (u "Comments") /\
  exists ys,
    getitem sample_clean (u "Comments") = Ok (ColObject ys) /\
    ys !! 0%nat = Some ONaN /\ ys !! 2%nat = Some (OStr (u "Car park closed")) /\
    ys !! 3%nat = Some ONaN.
Proof.
  assert (Hc : clean sample_raw = Ok sample_clean) by (vm_compute; reflexivity).
  assert (Hin : ((u "Comments"), ColObject [OStr (u "0"); OStr (u "-"); OStr (u " Car park closed "); ONaN])
                  ∈ columns sample_raw).
  { apply list_elem_of_lookup. exists 12%nat. reflexivity. }
  split; [exact Hc|]. split; [exact Hin|]. split; [reflexivity|].
  destruct (comments_normalized sample_raw sample_clean _ _ Hc Hin eq_refl)
    as (_ & ys & Hy & _ & Hrow).
  exists ys. split; [exact Hy|].
  split; [|split].
  - destruct (Hrow 0%nat) as [_ H0]. rewrite (H0 (u "0") eq_refl); [reflexivity|].
    vm_compute. discriminate.
  - destruct (Hrow 2%nat) as [_ H2].
    rewrite (H2 (u " Car park closed ") eq_refl); [reflexivity|].
    vm_compute. discriminate.
  - destruct (Hrow 3%nat) as [H3 _]. apply H3. reflexivity.
Defined.

(** ** Frames without the token [-] *)

Section DashFree.
Implicit Types (l k : str) (c : column) (df : DataFrame).

Lemma dash_free_replace_dash c : dash_free (Series_replace dash c).
Proof.
  destruct c as [xs| | |]; simpl; [|exact I..].
  intros Hin. apply list_elem_of_fmap in Hin as (o & Ho & _).
  rewrite replace_dash_obj in Ho. case_decide; congruence.
Qed.

Lemma dash_free_replace_typo c : dash_free (Series_replace typo_fix c).
Proof.
  destruct c as [xs| | |]; simpl; [|exact I..].
  intros Hin. apply list_elem_of_fmap in Hin as (o & Ho & _).
  rewrite replace_typo_obj in Ho. repeat case_decide; congruence.
Qed.

Lemma dash_free_replace_zero c :
  dash_free c -> dash_free (Series_replace zero_token c).
Proof.
  destruct c as [xs| | |]; simpl; [|auto..].
  intros Hxs Hin. apply list_elem_of_fmap in Hin as (o & Ho & Hin).
  rewrite replace_zero_obj in Ho. case_decide; congruence.
Qed.

Lemma dash_free_replace_id c : dash_free c -> Series_replace dash c = c.
Proof.
  destruct c as [xs| | |]; simpl; [|reflexivity..].
  intros Hxs. f_equal. induction xs as [|o xs IH]; [reflexivity|].
  apply not_elem_of_cons in Hxs as [Ho Hxs].
  cbn [map]. rewrite IH by exact Hxs. rewrite replace_dash_obj.
  rewrite decide_False by congruence. reflexivity.
Qed.

(** A cast of a column that holds the token [-] raises. *)
Lemma astype_int64_dash_free c c' : astype_int64 c = Ok c' -> dash_free c.
Proof.
  destruct c as [xs| | |]; simpl; [|intros; exact I..].
  intros H. apply fmap_Ok in H as (ys & H & _). apply traverse_Ok in H.
  intros Hin. apply list_elem_of_lookup in Hin as [i Hi].
  destruct (Forall2_lookup_l _ _ _ _ _ H Hi) as (y & _ & Hy).
  vm_compute in Hy. discriminate.
Qed.

Lemma apply_floor0_dash_free c c' : apply_floor0 c = Ok c' -> dash_free c'.
Proof.
  destruct c as [xs|xs|cat|xs]; simpl.
  - intros H. apply fmap_Ok in H as (ys & H & ->). apply traverse_Ok in H.
    simpl. intros Hin. apply list_elem_of_lookup in Hin as [i Hi].
    destruct (Forall2_lookup_r _ _ _ _ _ H Hi) as ([s|z|] & _ & Hy);
      simpl in Hy; congruence.
  - intros [= <-]. exact I.
  - destruct (categories cat); [|discriminate]. intros [= <-]. exact I.
  - destruct xs; [|discriminate]. intros [= <-]. exact I.
Qed.

Lemma Forall_assign (P : column -> Prop) l c cs :
  Forall (fun kc : str * column => P kc.2) cs -> P c ->
  Forall (fun kc : str * column => P kc.2) (assign_col l c cs).
Proof.
  intros Hcs Hc. induction Hcs as [|[k c0] cs H0 Hcs IH]; simpl.
  - constructor; [exact Hc|constructor].
  - destruct (str_eqb k l); constructor; assumption.
Qed.

Lemma update_col_dash_free df l f df' :
  update_col df l f = Ok df' ->
  (forall c c', f c = Ok c' -> dash_free c -> dash_free c') ->
  Forall (fun kc : str * column => dash_free kc.2) (columns df) ->
  Forall (fun kc : str * column => dash_free kc.2) (columns df').
Proof.
  intros H Hf Hall. apply update_col_spec in H as (c & c' & Hc & Hfc & ->).
  simpl. apply Forall_assign; [exact Hall|].
  apply (Hf c c' Hfc). apply lookup_col_In in Hc.
  rewrite Forall_forall in Hall. exact (Hall _ Hc).
Qed.

Lemma replace_dash_all df :
  Forall (fun kc : str * column => dash_free kc.2) (columns (replace_dash df)).
Proof.
  unfold replace_dash, DataFrame_replace. simpl. apply Forall_forall.
  intros kc Hin. apply list_elem_of_fmap in Hin as (kc0 & -> & _). simpl.
  apply dash_free_replace_dash.
Qed.

Lemma replace_dash_frame_id df :
  Forall (fun kc : str * column => dash_free kc.2) (columns df) ->
  replace_dash df = df.
Proof.
  destruct df as [idx cs]. unfold replace_dash, DataFrame_replace. simpl.
  intros Hall. f_equal. induction Hall as [|[k c] cs Hc _ IH]; [reflexivity|].
  cbn [map]. rewrite IH. simpl. simpl in Hc.
  change (Series_replace [((u "-"), OInt 0)] c) with (Series_replace dash c).
  rewrite dash_free_replace_id by exact Hc. reflexivity.
Qed.

Lemma coerce_all_dash_free ls df df' :
  coerce_all ls df = Ok df' ->
  Forall (fun kc : str * column => dash_free kc.2) (columns df) ->
  Forall (fun kc : str * column => dash_free kc.2) (columns df').
Proof.
  revert df. induction ls as [|l ls IH]; intros df; simpl.
  - intros [= <-]. auto.
  - intros H Hall. apply bind_Ok in H as (df1 & H1 & H).
    apply (IH _ H). eapply update_col_dash_free; [exact H1| |exact Hall].
    intros c c' Hc _. destruct (astype_int64_result _ _ Hc) as [xs ->]. exact I.
Qed.

Lemma coerce_all_id ls df :
  (forall l, l ∈ ls -> exists xs, lookup_col l (columns df) = Some (ColInt64 xs)) ->
  coerce_all ls df = Ok df.
Proof.
  induction ls as [|l ls IH]; intros Hls; simpl; [reflexivity|].
  destruct (Hls l) as [xs Hx]; [left|].
  rewrite (update_col_id df l astype_int64 _ Hx eq_refl). simpl.
  apply IH. intros l' Hl'. apply Hls. right. exact Hl'.
Qed.

Lemma repair_repaired df df' : repair df = Ok df' -> repaired df'.
Proof.
  intros H. split.
  - intros l Hl. destruct (repair_numeric _ _ _ H Hl) as (c & xs & _ & _ & Hr). eauto.
  - unfold repair in H. apply bind_Ok in H as (df1 & _ & H).
    eapply coerce_all_dash_free; [exact H|]. apply replace_dash_all.
Qed.

Lemma repaired_repair df : repaired df -> repair df = Ok df.
Proof.
  intros [Hnum Hall]. unfold repair.
  destruct (Hnum (u "Up to 1 hr")) as [xs Hx]; [left|].
  assert (H1 : repair_up_to_1hr df = Ok df).
  { unfold repair_up_to_1hr.
    rewrite (update_col_id df (u "Up to 1 hr")
               (fun c => Ok (Series_replace typo_fix c)) _ Hx eq_refl).
    simpl. apply (update_col_id df (u "Up to 1 hr") astype_int64 _ Hx eq_refl). }
  rewrite H1. simpl. rewrite replace_dash_frame_id by exact Hall.
  apply coerce_all_id. intros l Hl. apply Hnum. right. exact Hl.
Qed.

Lemma normalize_comments_repaired df df' :
  normalize_comments df = Ok df' -> repaired df -> repaired df'.
Proof.
  intros H [Hnum Hall]. split.
  - intros l Hl. rewrite (update_col_same _ _ _ _ l H); [auto|].
    intros ->. exact (not_numeric_Comments Hl).
  - eapply update_col_dash_free; [exact H| |exact Hall].
    intros c c' [= <-]. apply dash_free_replace_zero.
Qed.

Lemma floor_total_repaired df df' :
  floor_total df = Ok df' -> repaired df -> repaired df'.
Proof.
  intros H [Hnum Hall]. split.
  - intros l Hl. destruct (Hnum _ numeric_Total) as [ys Hy].
    destruct (floor_total_spec _ _ _ Hy H) as [Hr Ho].
    destruct (decide (l = (u "Total Exc Sub"))) as [->|Hne]; [eauto|].
    rewrite (Ho l Hne). auto.
  - eapply update_col_dash_free; [exact H| |exact Hall].
    intros c c' Hc _. eapply apply_floor0_dash_free; eauto.
Qed.

Lemma clean_repaired raw df : clean raw = Ok df -> repaired df.
Proof.
  intros H.
  apply clean_stages in H as (df1 & df2 & df3 & df4 & df5 & _ & _ & _ & H4 & H5 & H6).
  eapply floor_total_repaired; [exact H6|].
  eapply normalize_comments_repaired; [exact H5|].
  eapply repair_repaired; eauto.
Qed.
End DashFree.

(** C7.  The value repair is idempotent: run on a frame it has produced,
    and run on the cleaned frame, it returns the frame as it is.  The
    cleaned frame holds the token [-] in no column, and its [Up to 1 hr]
    is an integer column, which holds no [1,678]. *)
Theorem repair_idempotent :
  (forall df df', repair df = Ok df' -> repair df' = Ok df') /\
  (forall raw df,
     clean raw = Ok df ->
     repair df = Ok df /\
     (forall k c, (k, c) ∈ columns df -> dash_free c) /\
     exists xs, getitem df (u "Up to 1 hr") = Ok (ColInt64 xs) /\
                Series_replace typo_fix (ColInt64 xs) = ColInt64 xs).
Proof.
  split.
  - intros df df' H. apply repaired_repair. eapply repair_repaired; eauto.
  - intros raw df H. pose proof (clean_repaired _ _ H) as Hrep.
    split; [apply repaired_repair; exact Hrep|].
    destruct Hrep as [Hnum Hall]. split.
    + intros k c Hin. rewrite Forall_forall in Hall. exact (Hall _ Hin).
    + destruct (Hnum (u "Up to 1 hr")) as [xs Hx]; [left|].
      exists xs. rewrite getitem_Ok. split; [exact Hx|reflexivity].
Qed.

Lemma repair_idempotent_witness :
  clean sample_raw = Ok sample_clean /\ repair sample_clean = Ok sample_clean.
Proof.
  split; [vm_compute; reflexivity|].
  destruct repair_idempotent as [_ H].
  destruct (H sample_raw sample_clean) as [Hr _]; [vm_compute; reflexivity|].
  exact Hr.
Defined.

(** C4, as stated, fails: [Up to 1 hr] is cast to [int64] before the
    replacement of [-] in the whole frame.  In the sample, when the cell
    of [Up to 1 hr] has run, that column is an integer column and
    [1 to 2 hrs] still holds the token [-]; the replacement in the whole
    frame has not been made. *)
Lemma first_cast_before_replace_dash :
  exists df,
    repair_up_to_1hr sample_stripped = Ok df /\
    getitem df (u "Up to 1 hr") = Ok (ColInt64 [120; 0; 167; 95]) /\
    getitem df (u "1 to 2 hrs")
    = Ok (ColObject [OStr (u "300"); OStr (u "-"); OStr (u "210"); OStr (u "180")]) /\
    replace_dash df <> df.
Proof.
  eexists. split; [vm_compute; reflexivity|].
  split; [reflexivity|]. split; [reflexivity|].
  vm_compute. discriminate.
Qed.

(** C4, amended.  The replacement of [-] by 0 is made in every column of
    the frame, and it is made before the nine columns from [1 to 2 hrs]
    to [Total Exc Sub] are cast; [Up to 1 hr] is cast before it, after
    the replacement of [-] in that column alone.  So every column that is
    cast holds no [-] when it is cast (a cast of a column with a [-]
    raises). *)
Theorem dash_replaced_before_cast (df df' : DataFrame) :
  repair df = Ok df' ->
  exists c df1,
    getitem df (u "Up to 1 hr") = Ok c /\ dash_free (Series_replace typo_fix c) /\
    repair_up_to_1hr df = Ok df1 /\
    columns (replace_dash df1)
    = map (fun kc : str * column => (kc.1, Series_replace dash kc.2)) (columns df1) /\
    (forall k c1, (k, c1) ∈ columns (replace_dash df1) -> dash_free c1) /\
    coerce_numeric (replace_dash df1) = Ok df' /\
    (forall l, l ∈ coerced_later ->
       exists cl xs,
         getitem (replace_dash df1) l = Ok cl /\ dash_free cl /\
         astype_int64 cl = Ok (ColInt64 xs) /\
         getitem df' l = Ok (ColInt64 xs)) /\
    (forall c0 c1, astype_int64 c0 = Ok c1 -> dash_free c0).
Proof.
  unfold repair. intros H. apply bind_Ok in H as (df1 & H1 & H).
  pose proof H1 as H1'.
  apply repair_up_to_1hr_spec in H1' as (c & xs & Hc & Hf & _).
  exists c, df1. rewrite getitem_Ok.
  split; [exact Hc|]. split; [apply dash_free_replace_typo|].
  split; [exact H1|]. split; [reflexivity|].
  pose proof (replace_dash_all df1) as Hall. rewrite Forall_forall in Hall.
  split; [intros k c1 Hin; exact (Hall _ Hin)|].
  split; [exact H|]. split; [|exact astype_int64_dash_free].
  intros l Hl.
  destruct (coerce_all_result _ _ _ coerced_later_NoDup H l Hl)
    as (cl & ys & Hcl & Hfl & Hr).
  exists cl, ys. rewrite !getitem_Ok. split; [exact Hcl|].
  split; [|auto]. apply lookup_col_In in Hcl. exact (Hall _ Hcl).
Qed.

Lemma dash_replaced_before_cast_witness :
  exists df', repair sample_stripped = Ok df' /\
    exists cl xs,
      getitem (replace_dash (setitem sample_stripped (u "Up to 1 hr")
                                     (ColInt64 [120; 0; 167; 95])))
              (u "1 to 2 hrs") = Ok cl /\
      dash_free cl /\ astype_int64 cl = Ok (ColInt64 xs) /\
      getitem df' (u "1 to 2 hrs") = Ok (ColInt64 xs).
Proof.
  eexists. split; [vm_compute; reflexivity|].
  destruct (dash_replaced_before_cast sample_stripped _ eq_refl)
    as (c & df1 & _ & _ & H1 & _ & _ & _ & Hl & _).
  vm_compute in H1. injection H1 as <-.
  apply (Hl (u "1 to 2 hrs")). left.
Defined.

(** ** Dates *)

Section Dates.
Implicit Types (n v : Z) (d : date).

Ltac divlia := Z.div_mod_to_equations; lia.

(** The ten digits, by the binary shape of the number. *)
Ltac digit_cases n :=
  let p := fresh "p" in
  destruct n as [|p|p]; [reflexivity| |lia];
  do 4 (try (destruct p as [p|p|])); try lia; reflexivity.

Lemma digit_val_char n : 0 <= n <= 9 -> digit_val (digit_char n) = Some n.
Proof. intros Hn. digit_cases n. Qed.

Lemma decimal_char n : 0 <= n <= 9 -> decimal (digit_char n) = Some n.
Proof. intros Hn. digit_cases n. Qed.

Lemma digit_char_not_slash n :
  0 <= n <= 9 -> N.eqb (digit_char n) (ch "/") = false.
Proof. intros Hn. digit_cases n. Qed.

Lemma days_in_month_le y m : days_in_month y m <= 31.
Proof.
  unfold days_in_month.
  destruct (m =? 2); [destruct (is_leap y); lia|].
  destruct (_ || _); lia.
Qed.

Lemma valid_date_ranges d :
  valid_date d = true ->
  1 <= year d <= 9999 /\ 1 <= month d <= 12 /\ 1 <= day d <= 31.
Proof.
  unfold valid_date. rewrite !andb_true_iff, !Z.leb_le.
  pose proof (days_in_month_le (year d) (month d)). lia.
Qed.

Lemma field_d_two_digits v : 1 <= v <= 31 -> field_d (two_digits v) = Some v.
Proof.
  intros Hv. destruct v as [|p|p]; try lia.
  do 5 (try (destruct p as [p|p|])); try lia; reflexivity.
Qed.

Lemma field_m_two_digits v : 1 <= v <= 12 -> field_m (two_digits v) = Some v.
Proof.
  intros Hv. destruct v as [|p|p]; try lia.
  do 4 (try (destruct p as [p|p|])); try lia; reflexivity.
Qed.

Lemma field_Y_four_digits v : 0 <= v <= 9999 -> field_Y (four_digits v) = Some v.
Proof.
  intros Hv. unfold field_Y, four_digits.
  replace (v / 1000) with (v / 10 / 10 / 10)
    by (rewrite !Z.div_div by lia; reflexivity).
  replace (v / 100) with (v / 10 / 10)
    by (rewrite !Z.div_div by lia; reflexivity).
  rewrite !decimal_char by divlia. f_equal. divlia.
Qed.

Lemma split_dd_mm_yyyy d :
  1 <= year d <= 9999 -> 1 <= month d <= 12 -> 1 <= day d <= 31 ->
  split (ch "/") (dd_mm_yyyy d)
  = [two_digits (day d); two_digits (month d); four_digits (year d)].
Proof.
  intros Hy Hm Hd. unfold dd_mm_yyyy, two_digits, four_digits, split.
  cbn [app split_acc].
  rewrite !digit_char_not_slash by divlia.
  reflexivity.
Qed.

Lemma is_nat_string_length (s : str) :
  is_nat_string s = true -> length s = 0%nat \/ length s = 3%nat.
Proof.
  destruct s as [|c s]; [auto|]. cbn [is_nat_string]. intros H. right.
  apply existsb_exists in H as (t & Ht & E). apply str_eqb_eq in E. subst t.
  unfold nat_strings in Ht. cbn [In] in Ht.
  repeat (destruct Ht as [<-|Ht]; [reflexivity|]). destruct Ht.
Qed.

Lemma dd_mm_yyyy_not_nat d : is_nat_string (dd_mm_yyyy d) = false.
Proof.
  destruct (is_nat_string (dd_mm_yyyy d)) eqn:E; [|reflexivity].
  apply is_nat_string_length in E. cbn in E. destruct E; discriminate.
Qed.

(** The text of a date parses to that date, day first. *)
Lemma strptime_dd_mm_yyyy d :
  valid_date d = true -> in_bounds d = true -> strptime (dd_mm_yyyy d) = Ok d.
Proof.
  intros Hv Hb. destruct (valid_date_ranges d Hv) as (Hy & Hm & Hd).
  unfold strptime. rewrite split_dd_mm_yyyy by assumption.
  rewrite field_d_two_digits, field_m_two_digits, field_Y_four_digits by lia.
  destruct d as [y m dd]. simpl in *. rewrite Hv, Hb. reflexivity.
Qed.
End Dates.

(** A whole column of such texts parses, row by row. *)
Lemma to_datetime_dd_mm_yyyy (ds : list date) :
  Forall (fun d => valid_date d = true /\ in_bounds d = true) ds ->
  to_datetime (ColObject (map (fun d => OStr (dd_mm_yyyy d)) ds))
  = Ok (ColDatetime (map Some ds)).
Proof.
  intros Hds. cbn [to_datetime].
  assert (Ht : traverse obj_to_datetime (map (fun d => OStr (dd_mm_yyyy d)) ds)
               = Ok (map Some ds)).
  { induction Hds as [|d ds [Hv Hb] _ IH]; [reflexivity|].
    cbn [map traverse obj_to_datetime]. unfold str_to_datetime.
    rewrite dd_mm_yyyy_not_nat, (strptime_dd_mm_yyyy d Hv Hb), IH. reflexivity. }
  rewrite Ht. reflexivity.
Qed.

(** C5.  A date written as two digits of the day, [/], two digits of the
    month, [/], four digits of the year is read with the day first: the
    first field becomes the day and the second the month, for every date
    of the calendar that a timestamp can hold.  So [31/12/2022] is read
    as 2022-12-31 and [01/04/2015] as the first of April 2015, not as the
    fourth of January. *)
Theorem date_parsed_day_first :
  (forall d, valid_date d = true -> in_bounds d = true ->
     strptime (dd_mm_yyyy d) = Ok d) /\
  (forall ds, Forall (fun d => valid_date d = true /\ in_bounds d = true) ds ->
     to_datetime (ColObject (map (fun d => OStr (dd_mm_yyyy d)) ds))
     = Ok (ColDatetime (map Some ds))) /\
  strptime (u "31/12/2022") = Ok (mkdate 2022 12 31) /\
  strptime (u "01/04/2015") = Ok (mkdate 2015 4 1) /\
  strptime (u "01/04/2015") <> Ok (mkdate 2015 1 4) /\
  to_datetime (ColObject [OStr (u "31/12/2022"); OStr (u "01/04/2015")])
  = Ok (ColDatetime [Some (mkdate 2022 12 31); Some (mkdate 2015 4 1)]).
Proof.
  split; [exact strptime_dd_mm_yyyy|]. split; [exact to_datetime_dd_mm_yyyy|].
  split; [reflexivity|]. split; [reflexivity|].
  split; [vm_compute; discriminate|reflexivity].
Qed.

Lemma date_parsed_day_first_witness :
  valid_date (mkdate 2020 2 29) = true /\ in_bounds (mkdate 2020 2 29) = true /\
  dd_mm_yyyy (mkdate 2020 2 29) = (u "29/02/2020") /\
  strptime (u "29/02/2020") = Ok (mkdate 2020 2 29).
Proof.
  split; [reflexivity|]. split; [reflexivity|]. split; [reflexivity|].
  destruct date_parsed_day_first as [H _].
  exact (H (mkdate 2020 2 29) eq_refl eq_refl).
Defined.

(** ** The yearly subsets *)

Section Years.
Implicit Types (l k : str) (c : column) (df : DataFrame) (mask : list bool).

Lemma select_nil {A} mask : select mask (@nil A) = [].
Proof. destruct mask as [|[] mask]; reflexivity. Qed.

Lemma select_map {A B} (f : A -> B) mask (xs : list A) :
  select mask (map f xs) = map f (select mask xs).
Proof.
  revert xs. induction mask as [|b mask IH]; intros [|x xs]; simpl; try reflexivity.
  destruct b; simpl; rewrite IH; reflexivity.
Qed.

Lemma cells_select mask c : cells (select_col mask c) = select mask (cells c).
Proof.
  destruct c as [xs|xs|cat|xs]; simpl; rewrite ?select_map; try reflexivity.
  unfold cat_values. simpl. rewrite select_map. reflexivity.
Qed.

Lemma rows_of_select mask idx (cs : list (str * list cell)) :
  rows_of (select mask idx)
          (map (fun kc : str * list cell => (kc.1, select mask kc.2)) cs)
  = select mask (rows_of idx cs).
Proof.
  revert idx cs. induction mask as [|b mask IH]; intros idx cs.
  - destruct idx; reflexivity.
  - destruct idx as [|i idx]; [reflexivity|].
    destruct b.
    + cbn [select rows_of]. f_equal.
      * f_equal. rewrite map_map. apply map_ext. intros [k xs]. simpl.
        destruct xs; reflexivity.
      * rewrite <- IH. f_equal. rewrite !map_map. apply map_ext.
        intros [k xs]. destruct xs; cbn; rewrite ?select_nil; reflexivity.
    + cbn [select rows_of]. rewrite <- IH. f_equal. rewrite map_map.
      apply map_ext. intros [k xs].
      destruct xs; cbn; rewrite ?select_nil; reflexivity.
Qed.

(** [df.loc[mask]] keeps the rows at which the mask holds. *)
Lemma rows_loc df mask : rows (loc df mask) = select mask (rows df).
Proof.
  unfold rows, loc. simpl. rewrite <- rows_of_select. f_equal.
  rewrite !map_map. apply map_ext. intros [k c]. simpl.
  rewrite cells_select. reflexivity.
Qed.

Lemma lookup_cells_columns l (cs : list (str * column)) :
  lookup_cells l (map (fun kc : str * column => (kc.1, cells kc.2)) cs)
  = cells <$> lookup_col l cs.
Proof.
  induction cs as [|[k c] cs IH]; simpl; [reflexivity|].
  destruct (str_eqb k l); [reflexivity|exact IH].
Qed.

Lemma lookup_cells_tail l (cs : list (str * list cell)) :
  lookup_cells l (map (fun kc : str * list cell => (kc.1, tail kc.2)) cs)
  = tail <$> lookup_cells l cs.
Proof.
  induction cs as [|[k c] cs IH]; simpl; [reflexivity|].
  destruct (str_eqb k l); [reflexivity|exact IH].
Qed.

Lemma row_get_head l (cs : list (str * list cell)) :
  row_get l (map (fun kc : str * list cell => (kc.1, head kc.2)) cs)
  = xs ← lookup_cells l cs; head xs.
Proof.
  induction cs as [|[k c] cs IH]; simpl; [reflexivity|].
  destruct (str_eqb k l); [reflexivity|exact IH].
Qed.

(** The mask of the dates keeps the rows that are dated in the range. *)
Lemma select_dated lo hi idx (cs : list (str * list cell)) dates :
  lookup_cells (u "Date") cs = Some (map CDate dates) ->
  select (map (between lo hi) dates) (rows_of idx cs)
  = List.filter (row_dated lo hi) (rows_of idx cs).
Proof.
  revert cs dates. induction idx as [|i idx IH]; intros cs dates Hl.
  - simpl. rewrite select_nil. reflexivity.
  - assert (Hrow : row_dated lo hi
              (i, map (fun kc : str * list cell => (kc.1, head kc.2)) cs)
            = match dates with d :: _ => between lo hi d | [] => false end).
    { unfold row_dated. cbn [snd]. rewrite row_get_head, Hl.
      destruct dates; reflexivity. }
    assert (Htl : lookup_cells (u "Date")
              (map (fun kc : str * list cell => (kc.1, tail kc.2)) cs)
            = Some (map CDate (tail dates))).
    { rewrite lookup_cells_tail, Hl. destruct dates; reflexivity. }
    specialize (IH _ _ Htl).
    cbn [rows_of List.filter]. rewrite Hrow.
    destruct dates as [|d dates].
    + simpl in IH. rewrite <- IH. reflexivity.
    + cbn [map select]. simpl in IH. rewrite IH.
      destruct (between lo hi d); reflexivity.
Qed.

Lemma to_datetime_result c c' :
  to_datetime c = Ok c' -> exists dates, c' = ColDatetime dates.
Proof.
  destruct c as [xs|xs|cat|xs]; simpl; intros H;
    try (apply fmap_Ok in H as (ds & _ & ->); eauto).
  injection H as <-. eauto.
Qed.

Lemma clean_Date raw df :
  clean raw = Ok df ->
  exists dates, lookup_col (u "Date") (columns df) = Some (ColDatetime dates).
Proof.
  intros H.
  apply clean_stages in H as (df1 & df2 & df3 & df4 & df5 & H1 & H2 & H3 & H4 & H5 & H6).
  apply update_col_result in H2 as (c & c' & _ & Hf & Hr).
  destruct (to_datetime_result _ _ Hf) as [dates ->].
  exists dates.
  apply (typed_column_kept df2 df3 df4 df5 df (u "Date") _ H3 H4 H5 H6).
  - reflexivity.
  - apply (bool_decide_unpack _). vm_compute. exact I.
  - discriminate.
  - exact I.
  - exact Hr.
Qed.

(** A slice by two bounds written as [YYYY-MM-DD], on a frame whose
    [Date] is a datetime column. *)
Lemma date_range_rows df dates lo hi a b :
  lookup_col (u "Date") (columns df) = Some (ColDatetime dates) ->
  Timestamp lo = Ok a -> Timestamp hi = Ok b ->
  exists s, date_range df lo hi = Ok s /\
            rows s = List.filter (row_dated a b) (rows df).
Proof.
  intros Hd Ha Hb. unfold date_range, getitem. rewrite Hd. simpl.
  rewrite Ha, Hb. simpl. eexists. split; [reflexivity|].
  rewrite rows_loc. unfold rows. apply select_dated.
  rewrite lookup_cells_columns, Hd. reflexivity.
Qed.

Lemma between_year y d :
  between (mkdate y 1 1) (mkdate y 12 31) (Some d) = true -> year d = y.
Proof.
  unfold between, date_leb. cbn [year month day].
  rewrite !andb_true_iff, !orb_true_iff, !andb_true_iff, !orb_true_iff,
    !andb_true_iff, !Z.ltb_lt, !Z.eqb_eq, !Z.leb_le. lia.
Qed.

Lemma year_between y d :
  valid_date d = true -> year d = y ->
  between (mkdate y 1 1) (mkdate y 12 31) (Some d) = true.
Proof.
  intros Hv <-. destruct (valid_date_ranges d Hv) as (_ & Hm & Hd).
  unfold between, date_leb. cbn [year month day].
  rewrite !andb_true_iff, !orb_true_iff, !andb_true_iff, !orb_true_iff,
    !andb_true_iff, !Z.ltb_lt, !Z.eqb_eq, !Z.leb_le. lia.
Qed.

Lemma row_in_year_date y (r : row) :
  row_in_year y r = true ->
  exists d, row_get (u "Date") r.2 = Some (CDate (Some d)) /\ year d = y.
Proof.
  unfold row_in_year, row_dated.
  destruct (row_get (u "Date") r.2) as [[| | |[d|]]|]; try discriminate.
  intros H. exists d. split; [reflexivity|]. apply between_year. exact H.
Qed.

Lemma year_subsets_range y sub df :
  (y, sub) ∈ year_subsets ->
  2018 <= y <= 2022 /\
  exists lo hi, sub df = date_range df lo hi /\
                Timestamp lo = Ok (mkdate y 1 1) /\
                Timestamp hi = Ok (mkdate y 12 31).
Proof.
  unfold year_subsets. intros H.
  repeat (apply elem_of_cons in H as [[= -> ->]|H]);
    [..|inversion H]; (split; [lia|]); eexists _, _;
    (split; [reflexivity|]); split; reflexivity.
Qed.
End Years.

(** C9.  For each year y from 2018 to 2022 the subset of the year holds
    exactly the rows of the cleaned frame that are dated from the first
    of January to the thirty-first of December of y, both days included:
    for a date of the calendar these are the dates of the year y, the
    thirty-first of December among them.  No row is in the subsets of
    two years, and a row dated before 2018 or after 2022 is in none. *)
Theorem year_subsets_partition (raw df : DataFrame) :
  clean raw = Ok df ->
  (forall y sub, (y, sub) ∈ year_subsets ->
     exists s, sub df = Ok s /\ rows s = List.filter (row_in_year y) (rows df)) /\
  (forall y d, valid_date d = true ->
     (between (mkdate y 1 1) (mkdate y 12 31) (Some d) = true <-> year d = y)) /\
  (forall y, between (mkdate y 1 1) (mkdate y 12 31) (Some (mkdate y 12 31)) = true) /\
  (forall y1 sub1 y2 sub2 s1 s2 r,
     (y1, sub1) ∈ year_subsets -> (y2, sub2) ∈ year_subsets -> y1 <> y2 ->
     sub1 df = Ok s1 -> sub2 df = Ok s2 ->
     r ∈ rows s1 -> r ∈ rows s2 -> False) /\
  (forall y sub s r d,
     (y, sub) ∈ year_subsets -> sub df = Ok s -> r ∈ rows df ->
     row_get (u "Date") r.2 = Some (CDate (Some d)) ->
     year d < 2018 \/ 2022 < year d -> r ∉ rows s).
Proof.
  intros H. destruct (clean_Date _ _ H) as [dates Hd].
  assert (Hsub : forall y sub, (y, sub) ∈ year_subsets ->
            exists s, sub df = Ok s /\
                      rows s = List.filter (row_in_year y) (rows df)).
  { intros y sub Hin.
    destruct (year_subsets_range y sub df Hin) as (_ & lo & hi & -> & Ha & Hb).
    exact (date_range_rows df dates lo hi _ _ Hd Ha Hb). }
  assert (Hmem : forall y sub s r, (y, sub) ∈ year_subsets -> sub df = Ok s ->
            r ∈ rows s -> row_in_year y r = true).
  { intros y sub s r Hin Hs Hr. destruct (Hsub y sub Hin) as (s' & Hs' & Hrows).
    rewrite Hs in Hs'. injection Hs' as <-. rewrite Hrows in Hr.
    apply list_elem_of_In, filter_In in Hr. tauto. }
  split; [exact Hsub|]. split.
  { intros y d Hv. split; [apply between_year|apply year_between; exact Hv]. }
  split.
  { intros y. unfold between, date_leb. cbn [year month day].
    rewrite !Z.eqb_refl, !Z.ltb_irrefl. reflexivity. }
  split.
  - intros y1 sub1 y2 sub2 s1 s2 r Hin1 Hin2 Hne Hs1 Hs2 Hr1 Hr2.
    destruct (row_in_year_date _ _ (Hmem _ _ _ _ Hin1 Hs1 Hr1)) as (d1 & Hd1 & Hy1).
    destruct (row_in_year_date _ _ (Hmem _ _ _ _ Hin2 Hs2 Hr2)) as (d2 & Hd2 & Hy2).
    rewrite Hd1 in Hd2. injection Hd2 as <-. congruence.
  - intros y sub s r d Hin Hs _ Hrd Hout Hr.
    destruct (row_in_year_date _ _ (Hmem _ _ _ _ Hin Hs Hr)) as (d' & Hd' & Hy).
    rewrite Hrd in Hd'. injection Hd' as <-.
    destruct (year_subsets_range y sub df Hin) as [Hrange _]. lia.
Qed.

Lemma year_subsets_partition_witness :
  clean sample_raw = Ok sample_clean /\
  exists s, ge2018_data sample_clean = Ok s /\
            map fst (rows s) = [1%nat].
Proof.
  split; [vm_compute; reflexivity|].
  destruct (year_subsets_partition sample_raw sample_clean) as [H _];
    [vm_compute; reflexivity|].
  destruct (H 2018 ge2018_data) as (s & Hs & Hrows); [left|].
  exists s. split; [exact Hs|]. rewrite Hrows. vm_compute. reflexivity.
Defined.

(** * Further properties of the notebook *)

(** ** [str.strip] *)

Section StripLaws.
Implicit Types (s t : str) (c : N).

Lemma all_space_rev s : all_space (rev s) = all_space s.
Proof.
  unfold all_space. induction s as [|a s IH]; [reflexivity|].
  cbn [rev forallb]. rewrite forallb_app, IH. cbn [forallb].
  rewrite andb_true_r. apply andb_comm.
Qed.

Lemma last_char_rev s : last_char (rev s) = first_char s.
Proof. unfold last_char. rewrite rev_involutive. reflexivity. Qed.

Lemma lstrip_split s : exists w, s = (w ++ lstrip s)%list /\ all_space w = true.
Proof.
  induction s as [|a s (w & Hw & Hs)]; [exists []; auto|].
  cbn [lstrip]. destruct (is_space a) eqn:E.
  - exists (a :: w). unfold all_space in *. cbn [app forallb].
    rewrite E, Hs, <- Hw. auto.
  - exists []. auto.
Qed.

Lemma lstrip_first s c : first_char (lstrip s) = Some c -> is_space c = false.
Proof.
  induction s as [|a s IH]; [discriminate|].
  cbn [lstrip]. destruct (is_space a) eqn:E; [exact IH|].
  intros [= <-]. exact E.
Qed.

Lemma lstrip_id s :
  (forall c, first_char s = Some c -> is_space c = false) -> lstrip s = s.
Proof.
  destruct s as [|a s]; [reflexivity|]. intros H. cbn [lstrip].
  rewrite (H a eq_refl). reflexivity.
Qed.

Lemma rstrip_split s : exists w, s = (rstrip s ++ w)%list /\ all_space w = true.
Proof.
  destruct (lstrip_split (rev s)) as (w & Hw & Hs).
  exists (rev w). split; [|rewrite all_space_rev; exact Hs].
  unfold rstrip. rewrite <- rev_app_distr, <- Hw, rev_involutive. reflexivity.
Qed.

Lemma rstrip_last s c : last_char (rstrip s) = Some c -> is_space c = false.
Proof. unfold rstrip. rewrite last_char_rev. apply lstrip_first. Qed.

Lemma rstrip_first s c :
  first_char (rstrip s) = Some c -> first_char s = Some c.
Proof.
  destruct (rstrip_split s) as (w & Hw & _). intros H.
  rewrite Hw. destruct (rstrip s); [discriminate|exact H].
Qed.

Lemma rstrip_idem s : rstrip (rstrip s) = rstrip s.
Proof.
  unfold rstrip. rewrite rev_involutive. f_equal.
  apply lstrip_id. apply lstrip_first.
Qed.

Lemma strip_trimmed s : trimmed (strip s).
Proof.
  split; intros c H.
  - apply rstrip_first in H. eapply lstrip_first; eauto.
  - eapply rstrip_last; eauto.
Qed.

Lemma strip_idem s : strip (strip s) = strip s.
Proof.
  unfold strip at 1. rewrite (lstrip_id (strip s)) by apply strip_trimmed.
  unfold strip. apply rstrip_idem.
Qed.

Lemma strip_split s :
  exists a b, s = (a ++ strip s ++ b)%list /\
              all_space a = true /\ all_space b = true.
Proof.
  destruct (lstrip_split s) as (a & Ha & Hsa).
  destruct (rstrip_split (lstrip s)) as (b & Hb & Hsb).
  exists a, b. unfold strip. rewrite <- Hb, <- Ha. auto.
Qed.
End StripLaws.

(** ** [whitespace_remover] as a whole *)

Section Remover.
Implicit Types (l k : str) (c : column) (df : DataFrame).

Lemma traverse_graph {A B} (f : A -> res B) (g : A -> B) (xs : list A) (ys : list B) :
  (forall x y, x ∈ xs -> f x = Ok y -> y = g x) ->
  traverse f xs = Ok ys -> ys = map g xs.
Proof.
  intros Hg H. apply traverse_Ok in H.
  induction H as [|x y xs ys Hxy _ IH]; [reflexivity|].
  cbn [map]. f_equal.
  - apply Hg; [left|exact Hxy].
  - apply IH. intros x' y' Hin. apply Hg. right. exact Hin.
Qed.

Lemma traverse_total {A B} (f : A -> res B) (g : A -> B) (xs : list A) :
  (forall x, x ∈ xs -> f x = Ok (g x)) -> traverse f xs = Ok (map g xs).
Proof.
  induction xs as [|x xs IH]; intros Hf; [reflexivity|].
  cbn [traverse map]. rewrite (Hf x) by left. simpl.
  rewrite IH; [reflexivity|]. intros x' Hin. apply Hf. right. exact Hin.
Qed.

Lemma traverse_Raise {A B} (f : A -> res B) (xs : list A) e :
  traverse f xs = Raise e -> exists x, x ∈ xs /\ f x = Raise e.
Proof.
  induction xs as [|x xs IH]; [discriminate|].
  cbn [traverse]. destruct (f x) as [y|e'] eqn:Hx; simpl.
  - destruct (traverse f xs) as [ys|e''] eqn:Hxs; simpl; [discriminate|].
    intros [= <-]. destruct (IH eq_refl) as (x' & Hin & Hx').
    exists x'. split; [right; exact Hin|exact Hx'].
  - intros [= <-]. exists x. split; [left|exact Hx].
Qed.

Lemma strip_if_object_Ok k c kc' :
  strip_if_object (k, c) = Ok kc' -> kc' = (k, strip_column c) /\ str_accessible c.
Proof.
  unfold strip_if_object, str_strip. destruct c as [xs|xs|cat|xs]; simpl;
    try (intros [= <-]; split; [reflexivity|exact I]).
  destruct (existsb is_int xs) eqn:Ei; destruct (existsb is_str xs) eqn:Es; simpl;
    try discriminate; intros [= <-]; split; try reflexivity; congruence.
Qed.

Lemma strip_if_object_accessible k c :
  str_accessible c -> strip_if_object (k, c) = Ok (k, strip_column c).
Proof.
  unfold strip_if_object, str_strip. destruct c as [xs|xs|cat|xs]; simpl;
    try reflexivity.
  intros H. destruct (existsb is_int xs); simpl; [|reflexivity].
  rewrite H by reflexivity. reflexivity.
Qed.

Lemma strip_if_object_Raise k c e :
  strip_if_object (k, c) = Raise e -> e = AttributeError /\ ~ str_accessible c.
Proof.
  unfold strip_if_object, str_strip. destruct c as [xs|xs|cat|xs]; simpl;
    try discriminate.
  destruct (existsb is_int xs) eqn:Ei; destruct (existsb is_str xs) eqn:Es; simpl;
    try discriminate.
  intros [= <-]. split; [reflexivity|]. intros H. specialize (H eq_refl). discriminate.
Qed.

Lemma stripped_labels (cs : list (str * column)) :
  (map (fun kc : str * column => (strip kc.1, kc.2)) cs).*1 = strip <$> cs.*1.
Proof.
  induction cs as [|[k c] cs IH]; [reflexivity|].
  cbn [map]. rewrite !fmap_cons, IH. reflexivity.
Qed.

Lemma whitespace_remover_columns df df' :
  whitespace_remover df = Ok df' ->
  index df' = index df /\ columns df' = map strip_entry (columns df) /\
  NoDup (strip <$> (columns df).*1) /\
  Forall (fun kc : str * column => str_accessible kc.2) (columns df).
Proof.
  unfold whitespace_remover. destruct (decide _) as [Hnd|]; [|discriminate].
  intros H. apply bind_Ok in H as (cs' & Hcs & [= <-]). simpl.
  split; [reflexivity|].
  assert (Hall : Forall (fun kc : str * column => str_accessible kc.2) (columns df)).
  { apply traverse_Ok in Hcs. apply Forall_forall. intros [k c] Hin.
    apply list_elem_of_lookup in Hin as [i Hi].
    assert (Hi' : map (fun kc : str * column => (strip kc.1, kc.2)) (columns df) !! i
                  = Some (strip k, c)) by (rewrite list_lookup_fmap, Hi; reflexivity).
    destruct (Forall2_lookup_l _ _ _ _ _ Hcs Hi') as (kc' & _ & Hs).
    apply strip_if_object_Ok in Hs as [_ Hs]. exact Hs. }
  split; [|split; [|exact Hall]].
  - apply (traverse_graph _ (fun kc : str * column => (kc.1, strip_column kc.2))) in Hcs.
    + rewrite Hcs, map_map. reflexivity.
    + intros [k c] y _ Hy. apply strip_if_object_Ok in Hy as [-> _]. reflexivity.
  - rewrite stripped_labels in Hnd. exact Hnd.
Qed.

Lemma whitespace_remover_succeeds df :
  NoDup (strip <$> (columns df).*1) ->
  Forall (fun kc : str * column => str_accessible kc.2) (columns df) ->
  whitespace_remover df = Ok (mkdf (index df) (map strip_entry (columns df))).
Proof.
  intros Hnd Hall. unfold whitespace_remover.
  rewrite decide_True by (rewrite stripped_labels; exact Hnd).
  rewrite (traverse_total _ (fun kc : str * column => (kc.1, strip_column kc.2))).
  - simpl. rewrite map_map. reflexivity.
  - intros [k c] Hin. apply strip_if_object_accessible.
    apply list_elem_of_fmap in Hin as ([k0 c0] & [= -> ->] & Hin).
    rewrite Forall_forall in Hall. exact (Hall _ Hin).
Qed.

Lemma strip_obj_idem (o : obj) : strip_obj (strip_obj o) = strip_obj o.
Proof. destruct o; simpl; [rewrite strip_idem|..]; reflexivity. Qed.

Lemma strip_entry_idem kc : strip_entry (strip_entry kc) = strip_entry kc.
Proof.
  destruct kc as [k c]. unfold strip_entry. simpl. rewrite strip_idem. f_equal.
  destruct c as [xs| | |]; simpl; [|reflexivity..].
  f_equal. rewrite map_map. apply map_ext. exact strip_obj_idem.
Qed.

Lemma strip_column_accessible c : str_accessible (strip_column c).
Proof.
  destruct c as [xs| | |]; simpl; [|exact I..].
  intros H. apply existsb_exists in H as (o & Hin & Ho).
  apply in_map_iff in Hin as ([s|z|] & <- & _); discriminate.
Qed.
End Remover.

(** X1.  What [whitespace_remover] returns: the index as it is, the
    columns in their order, each under its stripped label, the cells of
    an [object] column stripped (a cell that is not a [str] becomes NaN),
    every other column as it is.  It returns when the stripped labels
    differ from each other and the [.str] accessor accepts every [object]
    column, and raises [AttributeError], nothing else, when not. *)
Theorem whitespace_remover_result (df : DataFrame) :
  (forall df', whitespace_remover df = Ok df' ->
     df' = mkdf (index df) (map strip_entry (columns df)) /\
     NoDup (strip <$> (columns df).*1) /\
     (forall k c, (k, c) ∈ columns df -> str_accessible c)) /\
  (NoDup (strip <$> (columns df).*1) ->
   (forall k c, (k, c) ∈ columns df -> str_accessible c) ->
   whitespace_remover df = Ok (mkdf (index df) (map strip_entry (columns df)))) /\
  (forall e, whitespace_remover df = Raise e -> e = AttributeError).
Proof.
  split; [|split].
  - intros df' H. destruct (whitespace_remover_columns _ _ H) as (Hi & Hc & Hnd & Hall).
    split; [destruct df'; simpl in *; congruence|]. split; [exact Hnd|].
    intros k c Hin. rewrite Forall_forall in Hall. exact (Hall _ Hin).
  - intros Hnd Hall. apply whitespace_remover_succeeds; [exact Hnd|].
    apply Forall_forall. intros [k c] Hin. exact (Hall _ _ Hin).
  - intros e. unfold whitespace_remover. destruct (decide _); [|congruence].
    destruct (traverse strip_if_object _) as [cs'|e'] eqn:E; simpl; [discriminate|].
    intros [= <-]. apply traverse_Raise in E as ([k c] & _ & E).
    apply strip_if_object_Raise in E as [-> _]. reflexivity.
Qed.

Lemma whitespace_remover_result_witness :
  whitespace_remover sample_parsed = Ok sample_stripped /\
  sample_stripped
  = mkdf (index sample_parsed) (map strip_entry (columns sample_parsed)).
Proof.
  split; [vm_compute; reflexivity|].
  destruct (whitespace_remover_result sample_parsed) as [H _].
  destruct (H sample_stripped) as [Hr _]; [vm_compute; reflexivity|exact Hr].
Defined.

(** X2.  After [whitespace_remover] no column label and no text of a
    cell begins or ends with whitespace, and what was taken away from a
    text is whitespace only. *)
Theorem whitespace_remover_trims (df df' : DataFrame) :
  whitespace_remover df = Ok df' ->
  (forall k c, (k, c) ∈ columns df' ->
     trimmed k /\
     forall xs s, c = ColObject xs -> OStr s ∈ xs -> trimmed s) /\
  (forall s, exists a b,
     s = (a ++ strip s ++ b)%list /\ all_space a = true /\ all_space b = true).
Proof.
  intros H. destruct (whitespace_remover_columns _ _ H) as (_ & Hc & _).
  split; [|exact strip_split].
  intros k c Hin. rewrite Hc in Hin.
  apply list_elem_of_fmap in Hin as ([k0 c0] & [= -> ->] & _). simpl.
  split; [apply strip_trimmed|].
  intros xs s Hxs Hs. destruct c0 as [ys| | |]; simpl in Hxs; try discriminate.
  injection Hxs as <-. apply list_elem_of_fmap in Hs as ([t| |] & Ho & _);
    simpl in Ho; try discriminate.
  injection Ho as ->. apply strip_trimmed.
Qed.

Lemma whitespace_remover_trims_witness :
  whitespace_remover sample_parsed = Ok sample_stripped /\
  trimmed (u "Up to 1 hr") /\ trimmed (u "120").
Proof.
  split; [vm_compute; reflexivity|].
  destruct (whitespace_remover_trims sample_parsed sample_stripped) as [H _];
    [vm_compute; reflexivity|].
  destruct (H (u "Up to 1 hr") (ColObject [OStr (u "120"); OStr (u "-"); OStr (u "1,678"); OStr (u "95")]))
    as [Hk Hc].
  - apply list_elem_of_lookup. exists 2%nat. reflexivity.
  - split; [exact Hk|]. apply (Hc _ (u "120") eq_refl). left.
Defined.

(** X3.  [whitespace_remover] is idempotent: run on a frame it has
    returned, it returns that frame. *)
Theorem whitespace_remover_idempotent (df df' : DataFrame) :
  whitespace_remover df = Ok df' -> whitespace_remover df' = Ok df'.
Proof.
  intros H. destruct (whitespace_remover_columns _ _ H) as (Hi & Hc & Hnd & _).
  rewrite whitespace_remover_succeeds.
  - destruct df' as [idx cs]. simpl in *. subst. do 2 f_equal.
    rewrite map_map. apply map_ext. exact strip_entry_idem.
  - rewrite Hc. replace ((map strip_entry (columns df)).*1)
      with (strip <$> (columns df).*1).
    + rewrite <- list_fmap_compose. erewrite list_fmap_ext; [exact Hnd|].
      intros i k _. simpl. apply strip_idem.
    + clear. induction (columns df) as [|[k c] cs IH]; [reflexivity|].
      cbn [map]. rewrite !fmap_cons, IH. reflexivity.
  - rewrite Hc. apply Forall_forall. intros kc Hin.
    apply list_elem_of_fmap in Hin as ([k c] & -> & _). simpl.
    apply strip_column_accessible.
Qed.

Lemma whitespace_remover_idempotent_witness :
  whitespace_remover sample_parsed = Ok sample_stripped /\
  whitespace_remover sample_stripped = Ok sample_stripped.
Proof.
  split; [vm_compute; reflexivity|].
  apply (whitespace_remover_idempotent sample_parsed). vm_compute. reflexivity.
Defined.

(** ** Rows and columns through the cleaning *)

Section Shape.
Implicit Types (l k : str) (c : column) (df : DataFrame).

Lemma traverse_length {A B} (f : A -> res B) (xs : list A) (ys : list B) :
  traverse f xs = Ok ys -> length ys = length xs.
Proof. intros H. apply traverse_Ok in H. symmetry. eapply Forall2_length; eauto. Qed.

Lemma Categorical_length c cats ord :
  col_length (ColCategorical (Categorical c cats ord)) = col_length c.
Proof.
  destruct c as [xs|xs|cat|xs]; simpl; unfold cat_values; rewrite ?length_map;
    reflexivity.
Qed.

Lemma to_datetime_length c c' : to_datetime c = Ok c' -> col_length c' = col_length c.
Proof.
  destruct c as [xs|xs|cat|xs]; simpl; intros H.
  - apply fmap_Ok in H as (ys & H & ->). simpl. eapply traverse_length; eauto.
  - apply fmap_Ok in H as (ys & H & ->). simpl. eapply traverse_length; eauto.
  - apply fmap_Ok in H as (ys & H & ->). simpl. apply traverse_length in H.
    rewrite H. unfold cat_values. apply length_map.
  - injection H as <-. reflexivity.
Qed.

Lemma astype_int64_length c c' : astype_int64 c = Ok c' -> col_length c' = col_length c.
Proof.
  destruct c as [xs|xs|cat|xs]; simpl; intros H.
  - apply fmap_Ok in H as (ys & H & ->). simpl. eapply traverse_length; eauto.
  - injection H as <-. reflexivity.
  - destruct (forallb _ _); [|discriminate].
    apply fmap_Ok in H as (ys & H & ->). simpl. apply traverse_length in H.
    rewrite H. unfold cat_values. apply length_map.
  - injection H as <-. simpl. apply length_map.
Qed.

Lemma apply_floor0_length c c' : apply_floor0 c = Ok c' -> col_length c' = col_length c.
Proof.
  destruct c as [xs|xs|cat|xs]; simpl; intros H.
  - apply fmap_Ok in H as (ys & H & ->). simpl. eapply traverse_length; eauto.
  - injection H as <-. simpl. apply length_map.
  - destruct (categories cat); [|discriminate]. injection H as <-. reflexivity.
  - destruct xs; [|discriminate]. injection H as <-. reflexivity.
Qed.

Lemma Series_replace_length m c : col_length (Series_replace m c) = col_length c.
Proof. destruct c; simpl; rewrite ?length_map; reflexivity. Qed.

Lemma strip_column_length c : col_length (strip_column c) = col_length c.
Proof. destruct c; simpl; rewrite ?length_map; reflexivity. Qed.

Lemma assign_shape l c c' (cs : list (str * column)) :
  lookup_col l cs = Some c -> col_length c' = col_length c ->
  map (fun kc : str * column => (kc.1, col_length kc.2)) (assign_col l c' cs)
  = map (fun kc : str * column => (kc.1, col_length kc.2)) cs.
Proof.
  intros Hl Hlen. induction cs as [|[k c0] cs IH]; [discriminate|].
  cbn [lookup_col assign_col] in *. destruct (str_eqb k l).
  - injection Hl as ->. cbn [map fst snd]. rewrite Hlen. reflexivity.
  - cbn [map]. rewrite IH by exact Hl. reflexivity.
Qed.

Lemma update_col_shape df l f df' :
  update_col df l f = Ok df' ->
  (forall c c', f c = Ok c' -> col_length c' = col_length c) ->
  index df' = index df /\ shape df' = shape df.
Proof.
  intros H Hf. apply update_col_spec in H as (c & c' & Hc & Hfc & ->).
  split; [reflexivity|]. unfold shape. simpl.
  apply (assign_shape l c c'); [exact Hc|]. apply Hf. exact Hfc.
Qed.

Lemma replace_dash_shape df :
  index (replace_dash df) = index df /\ shape (replace_dash df) = shape df.
Proof.
  split; [reflexivity|]. unfold shape, replace_dash, DataFrame_replace. simpl.
  rewrite map_map. apply map_ext. intros [k c]. simpl.
  rewrite Series_replace_length. reflexivity.
Qed.

Lemma coerce_all_shape ls df df' :
  coerce_all ls df = Ok df' -> index df' = index df /\ shape df' = shape df.
Proof.
  revert df. induction ls as [|l ls IH]; intros df; simpl.
  - intros [= <-]. auto.
  - intros H. apply bind_Ok in H as (df1 & H1 & H).
    destruct (IH _ H) as [-> ->].
    eapply update_col_shape; [exact H1|exact astype_int64_length].
Qed.

Lemma repair_shape df df' :
  repair df = Ok df' -> index df' = index df /\ shape df' = shape df.
Proof.
  unfold repair, repair_up_to_1hr, coerce_numeric. intros H.
  apply bind_Ok in H as (df2 & H12 & H). apply bind_Ok in H12 as (df1 & H1 & H2).
  destruct (coerce_all_shape _ _ _ H) as [-> ->].
  destruct (replace_dash_shape df2) as [-> ->].
  destruct (update_col_shape _ _ _ _ H2 astype_int64_length) as [-> ->].
  eapply update_col_shape; [exact H1|].
  intros c c' [= <-]. apply Series_replace_length.
Qed.

Lemma whitespace_remover_shape df df' :
  whitespace_remover df = Ok df' ->
  index df' = index df /\
  shape df' = map (fun kc : str * nat => (strip kc.1, kc.2)) (shape df).
Proof.
  intros H. destruct (whitespace_remover_columns _ _ H) as (Hi & Hc & _).
  split; [exact Hi|]. unfold shape. rewrite Hc, !map_map.
  apply map_ext. intros [k c]. simpl. rewrite strip_column_length. reflexivity.
Qed.

Lemma clean_shape raw df :
  clean raw = Ok df ->
  index df = index raw /\
  shape df = map (fun kc : str * nat => (strip kc.1, kc.2)) (shape raw).
Proof.
  intros H.
  apply clean_stages in H as (df1 & df2 & df3 & df4 & df5 & H1 & H2 & H3 & H4 & H5 & H6).
  destruct (update_col_shape _ _ _ _ H6 apply_floor0_length) as [-> ->].
  destruct (update_col_shape _ _ _ _ H5) as [-> ->].
  { intros c c' [= <-]. apply Series_replace_length. }
  destruct (repair_shape _ _ H4) as [-> ->].
  destruct (whitespace_remover_shape _ _ H3) as [-> ->].
  destruct (update_col_shape _ _ _ _ H2 to_datetime_length) as [-> ->].
  destruct (update_col_shape _ _ _ _ H1) as [-> ->]; [|auto].
  intros c c' [= <-]. apply Categorical_length.
Qed.

Lemma lookup_col_label l (cs : list (str * column)) :
  is_Some (lookup_col l cs) <-> l ∈ cs.*1.
Proof.
  induction cs as [|[k c] cs IH]; cbn [lookup_col].
  - split; [intros [? [=]]|intros H; inversion H].
  - rewrite fmap_cons, elem_of_cons. cbn [fst].
    destruct (str_eqb_spec k l) as [->|Hne].
    + split; [auto|eauto].
    + rewrite IH. split; [auto|]. intros [->|H]; [contradiction|exact H].
Qed.

Lemma update_col_keeps_labels df l f df' :
  update_col df l f = Ok df' -> (columns df').*1 = (columns df).*1.
Proof.
  intros H. apply update_col_spec in H as (c & c' & Hc & _ & ->). simpl.
  clear -Hc. induction (columns df) as [|[k c0] cs IH]; [discriminate|].
  cbn [lookup_col assign_col] in *. destruct (str_eqb k l); [reflexivity|].
  rewrite !fmap_cons, (IH Hc). reflexivity.
Qed.
End Shape.

(** X4.  Cleaning drops, adds and reorders nothing: the cleaned frame has
    the index of the input and, column by column in the order of the
    input, the stripped label and the number of rows of the input
    column. *)
Theorem clean_keeps_shape (raw df : DataFrame) :
  clean raw = Ok df ->
  index df = index raw /\
  shape df = map (fun kc : str * nat => (strip kc.1, kc.2)) (shape raw) /\
  length (columns df) = length (columns raw).
Proof.
  intros H. destruct (clean_shape _ _ H) as [Hi Hs].
  split; [exact Hi|]. split; [exact Hs|].
  apply (f_equal (@length _)) in Hs. unfold shape in Hs.
  rewrite !length_map in Hs. exact Hs.
Qed.

Lemma clean_keeps_shape_witness :
  clean sample_raw = Ok sample_clean /\
  index sample_clean = [0; 1; 2; 3]%nat /\
  length (columns sample_clean) = 13%nat.
Proof.
  split; [vm_compute; reflexivity|].
  destruct (clean_keeps_shape sample_raw sample_clean) as (Hi & _ & Hl);
    [vm_compute; reflexivity|].
  split; [exact Hi|exact Hl].
Defined.

(** X5.  The columns the cleaning needs.  It returns only for an input
    that has a column labelled exactly [Day] and one labelled exactly
    [Date], and, under a label that strips to it, each of the ten numeric
    columns and [Comments].  Without an exact [Day], or with it and
    without an exact [Date], it raises [KeyError]: these two are looked
    up before the labels are stripped. *)
Theorem required_columns (raw : DataFrame) :
  (forall df, clean raw = Ok df ->
     (u "Day") ∈ (columns raw).*1 /\ (u "Date") ∈ (columns raw).*1 /\
     forall l, l ∈ stripped_required ->
       exists k, k ∈ (columns raw).*1 /\ strip k = l) /\
  ((u "Day") ∉ (columns raw).*1 -> clean raw = Raise KeyError) /\
  ((u "Date") ∉ (columns raw).*1 -> clean raw = Raise KeyError).
Proof.
  split; [|split].
  - intros df H.
    apply clean_stages in H as (df1 & df2 & df3 & df4 & df5 & H1 & H2 & H3 & H4 & H5 & H6).
    pose proof (update_col_keeps_labels _ _ _ _ H1) as L1.
    pose proof (update_col_keeps_labels _ _ _ _ H2) as L2.
    split.
    { apply update_col_spec in H1 as (c & _ & Hc & _). apply lookup_col_label. eauto. }
    split.
    { apply update_col_spec in H2 as (c & _ & Hc & _).
      rewrite <- L1. apply lookup_col_label. eauto. }
    intros l Hl.
    assert (H3l : is_Some (lookup_col l (columns df3))).
    { unfold stripped_required in Hl. apply elem_of_app in Hl as [Hl|Hl].
      - destruct (repair_numeric _ _ _ H4 Hl) as (c & _ & Hc & _). eauto.
      - apply list_elem_of_singleton in Hl as ->.
        apply update_col_spec in H5 as (c & _ & Hc & _).
        rewrite (repair_other _ _ _ H4 not_numeric_Comments) in Hc.
        destruct (lookup_col (u "Comments") (columns df3)); [eauto|discriminate]. }
    apply lookup_col_label in H3l.
    destruct (whitespace_remover_columns _ _ H3) as (_ & Hc & _).
    rewrite Hc in H3l. apply list_elem_of_fmap in H3l as (kc & -> & Hin).
    apply list_elem_of_fmap in Hin as ([k c] & -> & Hin).
    exists k. split; [|reflexivity].
    rewrite <- L1, <- L2. apply list_elem_of_fmap. exists (k, c). auto.
  - intros Hd. unfold clean, tidy, set_day_categorical, update_col, getitem.
    destruct (lookup_col (u "Day") (columns raw)) eqn:E; [|reflexivity].
    exfalso. apply Hd. apply lookup_col_label. eauto.
  - intros Hd. unfold clean, tidy, set_day_categorical.
    destruct (update_col raw (u "Day") _) as [df1|e] eqn:E1; simpl.
    + pose proof (update_col_keeps_labels _ _ _ _ E1) as L1.
      unfold parse_date, update_col, getitem.
      destruct (lookup_col (u "Date") (columns df1)) eqn:E; [|reflexivity].
      exfalso. apply Hd. rewrite <- L1. apply lookup_col_label. eauto.
    + unfold update_col, getitem in E1.
      destruct (lookup_col (u "Day") (columns raw)); simpl in E1; congruence.
Qed.

Lemma required_columns_witness :
  clean sample_raw = Ok sample_clean /\
  (exists k, k ∈ (columns sample_raw).*1 /\ strip k = (u "Total Exc Sub")) /\
  clean (mkdf [0%nat] [((u " Day"), ColObject [OStr (u "Mon")])]) = Raise KeyError.
Proof.
  split; [vm_compute; reflexivity|].
  split.
  - destruct (required_columns sample_raw) as [H _].
    destruct (H sample_clean) as (_ & _ & Hl); [vm_compute; reflexivity|].
    apply Hl. apply (bool_decide_unpack _). vm_compute. exact I.
  - destruct (required_columns (mkdf [0%nat] [((u " Day"), ColObject [OStr (u "Mon")])]))
      as (_ & H & _).
    apply H. apply (bool_decide_unpack _). vm_compute. exact I.
Defined.

(** ** The numeric columns from the input to the cleaned frame *)

Section Values.
Implicit Types (l k : str) (c : column) (df : DataFrame).

Lemma numeric_not_Day_Date k l :
  strip k = l -> l ∈ stripped_required -> k <> (u "Day") /\ k <> (u "Date").
Proof.
  intros Hk Hl. split; intros ->; vm_compute in Hk; subst l; revert Hl;
    apply (bool_decide_unpack _); vm_compute; exact I.
Qed.

(** A column of the input in the frame that [whitespace_remover] returns. *)
Lemma raw_to_stripped raw df1 df2 df3 k c :
  set_day_categorical raw = Ok df1 -> parse_date df1 = Ok df2 ->
  whitespace_remover df2 = Ok df3 ->
  (k, c) ∈ columns raw -> k <> (u "Day") -> k <> (u "Date") ->
  lookup_col (strip k) (columns df3) = Some (strip_column c).
Proof.
  intros H1 H2 H3 Hin Hd Ht.
  assert (Hin2 : (k, c) ∈ columns df2).
  { eapply update_col_In; [exact H2| |exact Ht].
    eapply update_col_In; [exact H1|exact Hin|exact Hd]. }
  destruct (whitespace_remover_lookup _ _ _ _ H3 Hin2) as (c' & Hc' & Hl).
  apply strip_if_object_Ok in Hc' as [[= ->] _]. exact Hl.
Qed.

Lemma decimal_range (c : N) d : decimal c = Some d -> 0 <= d <= 9.
Proof.
  unfold decimal. destruct (List.find _ decimal_zeros) as [z0|] eqn:E; [|discriminate].
  apply find_some in E as [_ E]. apply andb_true_iff in E as [E1 E2].
  apply Z.leb_le in E1, E2. intros [= <-]. lia.
Qed.

Lemma digits_acc_nonneg acc seen s z :
  0 <= acc -> digits_acc acc seen s = Some z -> 0 <= z.
Proof.
  revert acc seen. induction s as [|a s IH]; intros acc seen Hacc; cbn [digits_acc].
  - destruct seen; [|discriminate]. intros [= <-]. exact Hacc.
  - destruct (N.eqb a (ch "_")).
    + destruct seen; [|discriminate]. apply IH. exact Hacc.
    + destruct (decimal a) as [d|] eqn:Ed; [|discriminate].
      apply decimal_range in Ed. apply IH. lia.
Qed.

(** [int()] gives a negative number for a text with a minus sign only. *)
Lemma py_int_negative s z :
  py_int s = Some z -> z < 0 -> exists r, int_strip s = ch "-" :: r.
Proof.
  unfold py_int. intros H Hz.
  assert (Hpos : forall r, digits_acc 0 false r = Some z -> False).
  { intros r Hr. apply digits_acc_nonneg in Hr; lia. }
  destruct (int_strip s) as [|a r] eqn:E; [discriminate|].
  destruct (N.eqb_spec a (ch "+")) as [->|Hne']; [exfalso; eauto|].
  destruct (N.eqb_spec a (ch "-")) as [->|Hne]; [eauto|].
  exfalso. eauto.
Qed.

Lemma int_space_is_space (c : N) : int_space c = true -> is_space c = true.
Proof.
  unfold int_space. intros H.
  apply orb_true_iff in H as [H|H]; [apply orb_true_iff in H as [H|H]|].
  - apply andb_true_iff in H as [H1 H2]. apply Z.leb_le in H1, H2.
    unfold is_space. cbv zeta.
    rewrite (proj2 (Z.leb_le _ _) H1), (proj2 (Z.leb_le _ _) H2). reflexivity.
  - apply Z.eqb_eq in H. unfold is_space. rewrite H. reflexivity.
  - apply andb_true_iff in H as [_ H]. exact H.
Qed.

Lemma int_lstrip_id s :
  (forall x : N, first_char s = Some x -> is_space x = false) -> int_lstrip s = s.
Proof.
  destruct s as [|a s]; [reflexivity|]. intros H. cbn [int_lstrip].
  destruct (int_space a) eqn:E; [|reflexivity].
  apply int_space_is_space in E. rewrite (H a eq_refl) in E. discriminate.
Qed.

(** [int()] finds nothing to skip around a stripped text. *)
Lemma int_strip_trimmed s : trimmed s -> int_strip s = s.
Proof.
  intros [Hf Hl]. unfold int_strip. rewrite (int_lstrip_id s Hf).
  rewrite int_lstrip_id; [apply rev_involutive|].
  intros x Hx. apply Hl. exact Hx.
Qed.

Lemma cast_text_value l x v :
  obj_to_int64 (replace_obj (repair_tokens l) (strip_obj x)) = Ok v ->
  text_value l x v.
Proof.
  destruct x as [s|z|]; cbn [strip_obj]; [|discriminate..].
  intros H. exists s. split; [reflexivity|]. revert H.
  unfold repair_tokens. destruct (str_eqb_spec l (u "Up to 1 hr")) as [->|Hne].
  - rewrite replace_typo_obj.
    destruct (decide (OStr (strip s) = OStr (u "-"))) as [[= E]|E1].
    { intros [= <-]. auto. }
    destruct (decide (OStr (strip s) = OStr (u "1,678"))) as [[= E]|E2].
    { intros [= <-]. right. left. auto. }
    cbn [obj_to_int64]. destruct (py_int (strip s)) as [z|]; [|discriminate].
    destruct (in_int64 z) eqn:Ez; [|discriminate]. intros [= <-]. auto.
  - rewrite replace_dash_obj.
    destruct (decide (OStr (strip s) = OStr (u "-"))) as [[= E]|E1].
    { intros [= <-]. auto. }
    cbn [obj_to_int64]. destruct (py_int (strip s)) as [z|]; [|discriminate].
    destruct (in_int64 z) eqn:Ez; [|discriminate]. intros [= <-]. auto.
Qed.

Lemma clean_numeric_final raw df l :
  clean raw = Ok df -> l ∈ numeric_columns ->
  exists df3 c vs,
    (forall k c0, (k, c0) ∈ columns raw -> strip k = l ->
       lookup_col l (columns df3) = Some (strip_column c0)) /\
    lookup_col l (columns df3) = Some c /\
    astype_int64 (Series_replace (repair_tokens l) c) = Ok (ColInt64 vs) /\
    lookup_col l (columns df) = Some (ColInt64 (corrected l vs)).
Proof.
  intros H Hl.
  apply clean_stages in H as (df1 & df2 & df3 & df4 & df5 & H1 & H2 & H3 & H4 & H5 & H6).
  destruct (tidy_tail_numeric _ _ _ _ H4 H5 Hl) as (c & vs & Hc & Hf & Hr).
  exists df3, c, vs. split; [|split; [exact Hc|split; [exact Hf|]]].
  - intros k c0 Hin Hk.
    destruct (numeric_not_Day_Date k l Hk) as [Hd Ht].
    { unfold stripped_required. apply elem_of_app. left. exact Hl. }
    rewrite <- Hk. eapply raw_to_stripped; eauto.
  - destruct (tidy_tail_numeric _ _ _ _ H4 H5 numeric_Total) as (_ & ys & _ & _ & Hy).
    destruct (floor_total_spec _ _ _ Hy H6) as [Ht Ho].
    unfold corrected. destruct (str_eqb_spec l (u "Total Exc Sub")) as [->|Hne].
    + rewrite Hr in Hy. injection Hy as <-. exact Ht.
    + rewrite (Ho l Hne). exact Hr.
Qed.

Lemma clean_numeric_text raw df k xs l :
  clean raw = Ok df -> (k, ColObject xs) ∈ columns raw -> strip k = l ->
  l ∈ numeric_columns ->
  exists vs, lookup_col l (columns df) = Some (ColInt64 (corrected l vs)) /\
             Forall2 (text_value l) xs vs.
Proof.
  intros H Hin Hk Hl.
  destruct (clean_numeric_final _ _ _ H Hl) as (df3 & c & vs & H3 & Hc & Hf & Hr).
  rewrite (H3 _ _ Hin Hk) in Hc. injection Hc as <-.
  exists vs. split; [exact Hr|].
  cbn [strip_column Series_replace astype_int64] in Hf.
  apply fmap_Ok in Hf as (ys & Hf & [= ->]). apply traverse_Ok in Hf.
  rewrite map_map in Hf. apply Forall2_fmap_l in Hf.
  eapply Forall2_impl; [exact Hf|]. intros x v. apply cast_text_value.
Qed.
End Values.

(** X6.  A numeric column that comes in as text.  When the cleaning
    returns, every cell of the column was a text, and the cleaned column
    holds, row by row, the integer the stripped text is read as: 0 for
    [-], 167 for [1,678] in [Up to 1 hr], else what [int()] gives, within
    64 bits; in [Total Exc Sub] this integer floored at 0.  A missing
    cell, or a text that [int()] does not read, makes the cleaning
    raise. *)
Theorem numeric_from_text (raw df : DataFrame) (k l : str) (xs : list obj) :
  clean raw = Ok df -> (k, ColObject xs) ∈ columns raw -> strip k = l ->
  l ∈ numeric_columns ->
  exists vs, getitem df l = Ok (ColInt64 (corrected l vs)) /\
             Forall2 (text_value l) xs vs.
Proof.
  intros H Hin Hk Hl. destruct (clean_numeric_text _ _ _ _ _ H Hin Hk Hl) as (vs & Hr & Hv).
  exists vs. rewrite getitem_Ok. auto.
Qed.

Lemma numeric_from_text_witness :
  clean sample_raw = Ok sample_clean /\
  exists vs, getitem sample_clean (u "Up to 1 hr") = Ok (ColInt64 vs) /\
             Forall2 (text_value (u "Up to 1 hr"))
               [OStr (u " 120 "); OStr (u "-"); OStr (u "1,678"); OStr (u "95")] vs.
Proof.
  split; [vm_compute; reflexivity|].
  apply (numeric_from_text sample_raw sample_clean (u " Up to 1 hr ")).
  - vm_compute. reflexivity.
  - apply list_elem_of_lookup. exists 2%nat. reflexivity.
  - reflexivity.
  - left.
Defined.

(** X7.  A numeric column that comes in as integers goes through the
    cleaning as it is; [Total Exc Sub] comes out floored at 0. *)
Theorem numeric_from_int64 (raw df : DataFrame) (k l : str) (zs : list Z) :
  clean raw = Ok df -> (k, ColInt64 zs) ∈ columns raw -> strip k = l ->
  l ∈ numeric_columns ->
  getitem df l = Ok (ColInt64 (corrected l zs)).
Proof.
  intros H Hin Hk Hl.
  destruct (clean_numeric_final _ _ _ H Hl) as (df3 & c & vs & H3 & Hc & Hf & Hr).
  rewrite (H3 _ _ Hin Hk) in Hc. injection Hc as <-.
  cbn in Hf. injection Hf as <-. apply getitem_Ok. exact Hr.
Qed.

Lemma numeric_from_int64_witness :
  clean sample_raw = Ok sample_clean /\
  getitem sample_clean (u "Total Exc Sub")
  = Ok (ColInt64 (corrected (u "Total Exc Sub") [855; -1; 537; 551])) /\
  getitem sample_clean (u "2 to 3 hrs")
  = Ok (ColInt64 (corrected (u "2 to 3 hrs") [250; 0; 190; 160])).
Proof.
  assert (Hc : clean sample_raw = Ok sample_clean) by (vm_compute; reflexivity).
  split; [exact Hc|]. split.
  - apply (numeric_from_int64 sample_raw sample_clean (u " Total Exc Sub ") _ _ Hc).
    + apply list_elem_of_lookup. exists 10%nat. reflexivity.
    + reflexivity.
    + apply (bool_decide_unpack _). vm_compute. exact I.
  - apply (numeric_from_int64 sample_raw sample_clean (u "2 to 3 hrs") _ _ Hc).
    + apply list_elem_of_lookup. exists 4%nat. reflexivity.
    + reflexivity.
    + apply (bool_decide_unpack _). vm_compute. exact I.
Defined.

(** X8.  The cleaning makes no negative number of a text without a minus
    sign: where a numeric column that came in as text holds a negative
    value in the cleaned frame, the stripped text of that row begins
    with [-] (and [Total Exc Sub] holds none). *)
Theorem negative_needs_minus (raw df : DataFrame) (k l : str)
    (xs : list obj) (zs : list Z) :
  clean raw = Ok df -> (k, ColObject xs) ∈ columns raw -> strip k = l ->
  l ∈ numeric_columns -> getitem df l = Ok (ColInt64 zs) ->
  forall i z, zs !! i = Some z -> z < 0 ->
    l <> (u "Total Exc Sub") /\
    exists s r, xs !! i = Some (OStr s) /\ strip s = ch "-" :: r.
Proof.
  intros H Hin Hk Hl Hz i z Hi Hneg.
  destruct (clean_numeric_text _ _ _ _ _ H Hin Hk Hl) as (vs & Hr & Hv).
  apply getitem_Ok in Hz. rewrite Hr in Hz. injection Hz as <-.
  unfold corrected in Hi. destruct (str_eqb_spec l (u "Total Exc Sub")) as [->|Hne].
  { rewrite list_lookup_fmap in Hi. destruct (vs !! i) as [v|]; [|discriminate].
    injection Hi as <-. pose proof (floor0_nonneg v). lia. }
  split; [exact Hne|].
  destruct (Forall2_lookup_r _ _ _ _ _ Hv Hi) as (x & Hx & s & -> & Hs).
  exists s. destruct Hs as [[_ ->]|[(_ & _ & ->)|[Hp _]]]; [lia..|].
  destruct (py_int_negative _ _ Hp Hneg) as [r Hs].
  rewrite int_strip_trimmed in Hs by apply strip_trimmed. eauto.
Qed.

Lemma negative_needs_minus_witness :
  clean sample_raw = Ok sample_clean /\
  exists s r, [OStr (u "40"); OStr (u "-"); OStr (u "-5"); OStr (u "12")] !! 2%nat = Some (OStr s) /\
              strip s = ch "-" :: r.
Proof.
  assert (Hc : clean sample_raw = Ok sample_clean) by (vm_compute; reflexivity).
  split; [exact Hc|].
  assert (Hin : ((u "Subscribers "), ColObject [OStr (u "40"); OStr (u "-"); OStr (u "-5"); OStr (u "12")])
                  ∈ columns sample_raw)
    by (apply list_elem_of_lookup; exists 11%nat; reflexivity).
  assert (Hl : (u "Subscribers") ∈ numeric_columns)
    by (apply (bool_decide_unpack _); vm_compute; exact I).
  assert (Hz : getitem sample_clean (u "Subscribers") = Ok (ColInt64 [40; 0; -5; 12]))
    by (vm_compute; reflexivity).
  assert (Hneg : -5 < 0) by lia.
  destruct (negative_needs_minus sample_raw sample_clean _ _ _ _ Hc Hin eq_refl Hl Hz
              2%nat (-5) eq_refl Hneg) as [_ H].
  exact H.
Defined.

(** ** The date column from the input to the cleaned frame *)

Section DateColumn.
Implicit Types (l k : str) (c : column) (df : DataFrame).

(** What the parser returns is a date of the calendar that a timestamp
    can hold. *)
Lemma strptime_valid s v :
  strptime s = Ok v -> valid_date v = true /\ in_bounds v = true.
Proof.
  unfold strptime.
  destruct (split (ch "/") s) as [|fd [|fm [|fy [|]]]]; try discriminate.
  destruct (field_d fd) as [d|]; [|discriminate].
  destruct (field_m fm) as [m|]; [|discriminate].
  destruct (field_Y fy) as [y|]; [|discriminate].
  cbv zeta. destruct (valid_date _) eqn:Ev; [|discriminate].
  destruct (in_bounds _) eqn:Eb; [|discriminate].
  intros [= <-]. auto.
Qed.

Lemma obj_to_datetime_cell x d : obj_to_datetime x = Ok d -> date_of_cell x d.
Proof.
  destruct x as [s|z|]; cbn [obj_to_datetime]; [|discriminate|].
  - unfold str_to_datetime. destruct (is_nat_string s) eqn:E.
    + intros [= <-]. right. left. eauto.
    + intros H. apply fmap_Ok in H as (v & Hv & ->).
      right. right. exists s, v. destruct (strptime_valid _ _ Hv). repeat split; auto.
  - intros [= <-]. left. auto.
Qed.

Lemma clean_Date_from raw df :
  clean raw = Ok df ->
  exists c c', lookup_col (u "Date") (columns raw) = Some c /\ to_datetime c = Ok c' /\
               lookup_col (u "Date") (columns df) = Some c'.
Proof.
  intros H.
  apply clean_stages in H as (df1 & df2 & df3 & df4 & df5 & H1 & H2 & H3 & H4 & H5 & H6).
  pose proof (update_col_same _ _ _ _ (u "Date") H1 ltac:(discriminate)) as Hd1.
  apply update_col_result in H2 as (c & c' & Hc & Hf & Hr).
  exists c, c'. rewrite <- Hd1. split; [exact Hc|]. split; [exact Hf|].
  destruct (to_datetime_result _ _ Hf) as [dates ->].
  apply (typed_column_kept df2 df3 df4 df5 df (u "Date") _ H3 H4 H5 H6).
  - reflexivity.
  - apply (bool_decide_unpack _). vm_compute. exact I.
  - discriminate.
  - exact I.
  - exact Hr.
Qed.
End DateColumn.

(** X9.  The [Date] column of the cleaned frame holds, row by row, what
    the text of the input parses to under [%d/%m/%Y], a date of the
    calendar within the bounds of a timestamp, and NaT where the input
    has no date: a missing cell, the empty text, or one of the texts
    that stand for NaT.  The text is parsed as it is (before any
    stripping), and any other text that does not parse makes the
    cleaning raise. *)
Theorem date_column_parsed (raw df : DataFrame) (xs : list obj) :
  clean raw = Ok df -> getitem raw (u "Date") = Ok (ColObject xs) ->
  exists ds, getitem df (u "Date") = Ok (ColDatetime ds) /\
             Forall2 date_of_cell xs ds.
Proof.
  intros H Hx. apply getitem_Ok in Hx.
  destruct (clean_Date_from _ _ H) as (c & c' & Hc & Hf & Hr).
  rewrite Hx in Hc. injection Hc as <-. cbn [to_datetime] in Hf.
  apply fmap_Ok in Hf as (ds & Hf & ->). exists ds.
  rewrite getitem_Ok. split; [exact Hr|].
  apply traverse_Ok in Hf. eapply Forall2_impl; [exact Hf|].
  exact obj_to_datetime_cell.
Qed.

Lemma date_column_parsed_witness :
  clean sample_raw = Ok sample_clean /\
  exists ds, getitem sample_clean (u "Date") = Ok (ColDatetime ds) /\
             Forall2 date_of_cell
               [OStr (u "01/04/2015"); OStr (u "31/12/2018"); OStr (u "01/01/2019");
                OStr (u "31/12/2022")] ds.
Proof.
  split; [vm_compute; reflexivity|].
  apply (date_column_parsed sample_raw sample_clean).
  - vm_compute. reflexivity.
  - reflexivity.
Defined.

(** ** The comments, the weekday and the total, run again *)

Section Rerun.
Implicit Types (l k : str) (c : column) (df : DataFrame).

Lemma replace_zero_idem c :
  Series_replace zero_token (Series_replace zero_token c) = Series_replace zero_token c.
Proof.
  destruct c as [xs| | |]; simpl; [|reflexivity..].
  f_equal. rewrite map_map. apply map_ext. intros o.
  change (replace_obj zero_token (replace_obj zero_token o) = replace_obj zero_token o).
  rewrite (replace_zero_obj o). case_decide; [reflexivity|].
  rewrite replace_zero_obj. rewrite decide_False by assumption. reflexivity.
Qed.

Lemma replace_zero_free xs : OStr (u "0") ∉ map (replace_obj zero_token) xs.
Proof.
  intros Hin. apply list_elem_of_fmap in Hin as (o & Ho & _).
  rewrite replace_zero_obj in Ho. case_decide; congruence.
Qed.

Lemma get_indexer_absent cats s : s ∉ cats -> get_indexer cats s = -1.
Proof.
  induction cats as [|k cats IH]; [reflexivity|].
  intros Hs. apply not_elem_of_cons in Hs as [Hne Hs].
  cbn [get_indexer]. rewrite (eqb_label_ne k s) by congruence.
  rewrite (IH Hs). reflexivity.
Qed.

Lemma recode_indexer cats s :
  code_of_value cats (cat_value cats (get_indexer cats s)) = get_indexer cats s.
Proof.
  rewrite cat_value_indexer. destruct (decide (s ∈ cats)) as [Hs|Hs].
  - rewrite bool_decide_eq_true_2 by exact Hs. reflexivity.
  - rewrite bool_decide_eq_false_2 by exact Hs. cbn [code_of_value].
    rewrite get_indexer_absent by exact Hs. reflexivity.
Qed.

Lemma recode_value cats v :
  code_of_value cats (cat_value cats (code_of_value cats v)) = code_of_value cats v.
Proof. destruct v as [s|]; [apply recode_indexer|reflexivity]. Qed.

(** The conversion of a converted column changes nothing. *)
Lemma Categorical_idem c cats ord :
  Categorical (ColCategorical (Categorical c cats ord)) cats ord = Categorical c cats ord.
Proof.
  destruct c as [xs|xs|cat|xs]; cbn [Categorical]; f_equal;
    unfold cat_values; cbn [categories codes]; rewrite !map_map;
    apply map_ext; intros x.
  - destruct x as [s| |]; cbn [code_of_obj]; [apply recode_indexer|reflexivity..].
  - reflexivity.
  - apply recode_value.
  - reflexivity.
Qed.

Lemma floor0_idem z : floor0 (floor0 z) = floor0 z.
Proof. apply floor0_id. apply floor0_nonneg. Qed.

Lemma apply_floor0_idem c c' : apply_floor0 c = Ok c' -> apply_floor0 c' = Ok c'.
Proof.
  destruct c as [xs|xs|cat|xs]; cbn [apply_floor0].
  - intros H. apply fmap_Ok in H as (ys & H & ->). cbn [apply_floor0].
    rewrite (traverse_total floor0_obj (fun y => y)).
    + simpl. rewrite map_id. reflexivity.
    + intros y Hy. apply traverse_Ok in H.
      apply list_elem_of_lookup in Hy as [i Hi].
      destruct (Forall2_lookup_r _ _ _ _ _ H Hi) as ([s|z|] & _ & Hx);
        cbn [floor0_obj] in Hx; try discriminate; injection Hx as <-;
        cbn [floor0_obj]; rewrite ?floor0_idem; reflexivity.
  - intros [= <-]. cbn [apply_floor0]. rewrite map_map.
    do 2 f_equal. apply map_ext. exact floor0_idem.
  - destruct (categories cat) eqn:E; [|discriminate]. intros [= <-].
    cbn [apply_floor0]. rewrite E. reflexivity.
  - destruct xs; [|discriminate]. intros [= <-]. reflexivity.
Qed.

Lemma update_col_rerun df l f df' :
  update_col df l f = Ok df' ->
  (forall c c', f c = Ok c' -> f c' = Ok c') ->
  update_col df' l f = Ok df'.
Proof.
  intros H Hf. apply update_col_result in H as (c & c' & _ & Hc & Hr).
  eapply update_col_id; [exact Hr|]. eapply Hf; eauto.
Qed.
End Rerun.

(** X10.  When the cleaning has returned, the [Comments] column holds
    neither the text [0] nor the text [-] in any row, and the comments
    cell, run once more, leaves the frame as it is. *)
Theorem comments_hold_no_zero_text (raw df : DataFrame) :
  clean raw = Ok df ->
  (forall ys, getitem df (u "Comments") = Ok (ColObject ys) ->
     (OStr (u "0") ∉ ys) /\ (OStr (u "-") ∉ ys)) /\
  normalize_comments df = Ok df.
Proof.
  intros H. pose proof (clean_repaired _ _ H) as [_ Hdash].
  apply clean_stages in H as (df1 & df2 & df3 & df4 & df5 & _ & _ & _ & _ & H5 & H6).
  apply update_col_result in H5 as (c & c5 & _ & [= <-] & Hl5).
  assert (Hl : lookup_col (u "Comments") (columns df)
               = Some (Series_replace zero_token c)).
  { rewrite (update_col_same _ _ _ _ (u "Comments") H6) by discriminate. exact Hl5. }
  split.
  - intros ys Hy. apply getitem_Ok in Hy. split.
    + rewrite Hl in Hy. destruct c as [xs| | |]; try discriminate.
      injection Hy as <-. apply replace_zero_free.
    + apply lookup_col_In in Hy. rewrite Forall_forall in Hdash.
      exact (Hdash _ Hy).
  - eapply update_col_id; [exact Hl|]. rewrite replace_zero_idem. reflexivity.
Qed.

Lemma comments_hold_no_zero_text_witness :
  clean sample_raw = Ok sample_clean /\ normalize_comments sample_clean = Ok sample_clean.
Proof.
  split; [vm_compute; reflexivity|].
  destruct (comments_hold_no_zero_text sample_raw sample_clean) as [_ H];
    [vm_compute; reflexivity|exact H].
Defined.

(** X11.  The weekday cell is idempotent: run on a frame it has returned
    (the cleaned frame is one), it returns the frame as it is; the codes
    of a converted column are the codes of its values. *)
Theorem weekday_cell_idempotent (df df1 : DataFrame) :
  set_day_categorical df = Ok df1 -> set_day_categorical df1 = Ok df1.
Proof.
  intros H. unfold set_day_categorical in *.
  apply update_col_result in H as (c & c' & _ & [= <-] & Hr).
  eapply update_col_id; [exact Hr|]. rewrite Categorical_idem. reflexivity.
Qed.

Lemma weekday_cell_idempotent_witness :
  set_day_categorical sample_raw
  = Ok (setitem sample_raw (u "Day")
          (ColCategorical (mkcat day_categories true [2; 0; -1; 5]))) /\
  set_day_categorical
    (setitem sample_raw (u "Day")
       (ColCategorical (mkcat day_categories true [2; 0; -1; 5])))
  = Ok (setitem sample_raw (u "Day")
          (ColCategorical (mkcat day_categories true [2; 0; -1; 5]))).
Proof.
  split; [vm_compute; reflexivity|].
  apply (weekday_cell_idempotent sample_raw). vm_compute. reflexivity.
Defined.

(** X12.  The anomaly correction is idempotent, on any frame on which it
    returns, and changes no column but [Total Exc Sub], nor the index. *)
Theorem floor_total_idempotent (df df' : DataFrame) :
  floor_total df = Ok df' ->
  floor_total df' = Ok df' /\ index df' = index df /\
  forall l, l <> (u "Total Exc Sub") -> getitem df' l = getitem df l.
Proof.
  intros H. split; [|split].
  - unfold floor_total in *. eapply update_col_rerun; [exact H|].
    exact apply_floor0_idem.
  - apply update_col_spec in H as (c & c' & _ & _ & ->). reflexivity.
  - intros l Hl. apply getitem_lookup_eq. eapply update_col_same; eauto.
Qed.

Lemma floor_total_idempotent_witness :
  clean sample_raw = Ok sample_clean /\ floor_total sample_clean = Ok sample_clean.
Proof.
  split; [vm_compute; reflexivity|].
  assert (H5 : exists df5, tidy sample_raw = Ok df5 /\ floor_total df5 = Ok sample_clean).
  { eexists. split; vm_compute; reflexivity. }
  destruct H5 as (df5 & _ & H).
  destruct (floor_total_idempotent df5 sample_clean H) as [Hr _]. exact Hr.
Defined.

(** ** A yearly subset, sliced again *)

Section Nested.
Implicit Types (l k : str) (c : column) (df : DataFrame).

Lemma filter_all {A} (p : A -> bool) (xs : list A) :
  (forall x, In x xs -> p x = true) -> List.filter p xs = xs.
Proof.
  induction xs as [|x xs IH]; intros H; [reflexivity|].
  cbn [List.filter]. rewrite (H x) by (left; reflexivity).
  rewrite IH; [reflexivity|]. intros y Hy. apply H. right. exact Hy.
Qed.

Lemma filter_none {A} (p : A -> bool) (xs : list A) :
  (forall x, In x xs -> p x = false) -> List.filter p xs = [].
Proof.
  induction xs as [|x xs IH]; intros H; [reflexivity|].
  cbn [List.filter]. rewrite (H x) by (left; reflexivity).
  apply IH. intros y Hy. apply H. right. exact Hy.
Qed.

Lemma loc_Date df mask dates :
  lookup_col (u "Date") (columns df) = Some (ColDatetime dates) ->
  lookup_col (u "Date") (columns (loc df mask)) = Some (ColDatetime (select mask dates)).
Proof.
  intros H. unfold loc. cbn [columns].
  rewrite (lookup_col_map (select_col mask)), H. reflexivity.
Qed.

Lemma date_range_Date df dates lo hi s :
  lookup_col (u "Date") (columns df) = Some (ColDatetime dates) ->
  date_range df lo hi = Ok s ->
  exists dates', lookup_col (u "Date") (columns s) = Some (ColDatetime dates').
Proof.
  intros Hd H. unfold date_range, getitem in H. rewrite Hd in H. simpl in H.
  apply bind_Ok in H as (mask & _ & [= <-]).
  eexists. apply loc_Date. exact Hd.
Qed.
End Nested.

(** X13.  The yearly subsets compose: the subset of the year y2 taken of
    the subset of the year y1 of the cleaned frame is that subset again
    when y2 is y1, and has no row when y2 is another year. *)
Theorem year_subset_of_subset (raw df : DataFrame) :
  clean raw = Ok df ->
  forall y1 sub1 y2 sub2 s1,
    (y1, sub1) ∈ year_subsets -> (y2, sub2) ∈ year_subsets ->
    sub1 df = Ok s1 ->
    exists s2, sub2 s1 = Ok s2 /\
               rows s2 = if decide (y1 = y2) then rows s1 else [].
Proof.
  intros H y1 sub1 y2 sub2 s1 Hin1 Hin2 Hs1.
  destruct (clean_Date _ _ H) as [dates Hd].
  destruct (year_subsets_range y1 sub1 df Hin1) as (_ & lo1 & hi1 & E1 & Ha1 & Hb1).
  destruct (date_range_rows df dates lo1 hi1 _ _ Hd Ha1 Hb1) as (s1' & Hs1' & Hrows1).
  rewrite E1, Hs1' in Hs1. injection Hs1 as <-.
  destruct (date_range_Date _ _ _ _ _ Hd Hs1') as [dates1 Hd1].
  destruct (year_subsets_range y2 sub2 s1' Hin2) as (_ & lo2 & hi2 & E2 & Ha2 & Hb2).
  destruct (date_range_rows s1' dates1 lo2 hi2 _ _ Hd1 Ha2 Hb2) as (s2 & Hs2 & Hrows2).
  exists s2. rewrite E2. split; [exact Hs2|].
  rewrite Hrows2. fold (row_in_year y2). fold (row_in_year y1) in Hrows1.
  assert (Hmem : forall r, In r (rows s1') -> row_in_year y1 r = true).
  { intros r Hr. rewrite Hrows1 in Hr. apply filter_In in Hr. tauto. }
  destruct (decide (y1 = y2)) as [<-|Hne].
  - apply filter_all. exact Hmem.
  - apply filter_none. intros r Hr.
    destruct (row_in_year y2 r) eqn:E; [|exact E]. exfalso.
    destruct (row_in_year_date _ _ (Hmem r Hr)) as (d1 & Hd1' & Hy1).
    destruct (row_in_year_date _ _ E) as (d2 & Hd2' & Hy2).
    rewrite Hd1' in Hd2'. injection Hd2' as <-. congruence.
Qed.

Lemma year_subset_of_subset_witness :
  clean sample_raw = Ok sample_clean /\
  exists s1 s2, ge2018_data sample_clean = Ok s1 /\ ge2019_data s1 = Ok s2 /\
                rows s2 = [].
Proof.
  assert (Hc : clean sample_raw = Ok sample_clean) by (vm_compute; reflexivity).
  split; [exact Hc|].
  destruct (ge2018_data sample_clean) as [s1|e] eqn:E1; [|vm_compute in E1; discriminate].
  assert (Hin1 : (2018, ge2018_data) ∈ year_subsets) by left.
  assert (Hin2 : (2019, ge2019_data) ∈ year_subsets) by (right; left).
  destruct (year_subset_of_subset sample_raw sample_clean Hc
              2018 ge2018_data 2019 ge2019_data s1 Hin1 Hin2 E1) as (s2 & Hs2 & Hr).
  exists s1, s2. split; [reflexivity|]. split; [exact Hs2|exact Hr].
Defined.

(** ** Every dated row of the five years is in a subset *)

Section Cover.
Implicit Types (l : str) (r : row).

Lemma rows_of_cell l idx (cs : list (str * list cell)) xs r x :
  In r (rows_of idx cs) -> lookup_cells l cs = Some xs ->
  row_get l r.2 = Some x -> x ∈ xs.
Proof.
  revert cs xs. induction idx as [|i idx IH]; intros cs xs Hr Hl Hx; [destruct Hr|].
  cbn [rows_of] in Hr. destruct Hr as [<-|Hr].
  - cbn [snd] in Hx. rewrite row_get_head, Hl in Hx. simpl in Hx.
    destruct xs as [|x0 xs]; [discriminate|]. injection Hx as <-. left.
  - assert (Htl : lookup_cells l
              (map (fun kc : str * list cell => (kc.1, tail kc.2)) cs)
            = Some (tail xs)) by (rewrite lookup_cells_tail, Hl; reflexivity).
    specialize (IH _ _ Hr Htl Hx).
    destruct xs as [|x0 xs]; [inversion IH|right; exact IH].
Qed.

Lemma year_subsets_has y :
  2018 <= y <= 2022 -> exists sub, (y, sub) ∈ year_subsets.
Proof.
  intros Hy.
  assert (H : y = 2018 \/ y = 2019 \/ y = 2020 \/ y = 2021 \/ y = 2022) by lia.
  destruct H as [->|[->|[->|[->| ->]]]]; eexists; unfold year_subsets;
    repeat (first [left; reflexivity | right]); left.
Qed.
End Cover.

(** X14.  The five subsets cover the five years: a row of the cleaned
    frame whose date is of a year y from 2018 to 2022 is a row of the
    subset of y (the dates of the frame are dates of the calendar, as
    they come from the parser). *)
Theorem year_subsets_cover (raw df : DataFrame) (xs : list obj) :
  clean raw = Ok df -> getitem raw (u "Date") = Ok (ColObject xs) ->
  forall r d,
    r ∈ rows df -> row_get (u "Date") r.2 = Some (CDate (Some d)) ->
    2018 <= year d <= 2022 ->
    valid_date d = true /\
    exists sub s, (year d, sub) ∈ year_subsets /\ sub df = Ok s /\ r ∈ rows s.
Proof.
  intros H Hx r d Hr Hd Hy. apply getitem_Ok in Hx.
  destruct (clean_Date_from _ _ H) as (c & c' & Hc & Hf & Hl).
  rewrite Hx in Hc. injection Hc as <-. cbn [to_datetime] in Hf.
  apply fmap_Ok in Hf as (ds & Hf & ->). apply traverse_Ok in Hf.
  assert (Hin : CDate (Some d) ∈ map CDate ds).
  { apply list_elem_of_In in Hr. unfold rows in Hr.
    eapply rows_of_cell; [exact Hr| |exact Hd].
    rewrite lookup_cells_columns, Hl. reflexivity. }
  apply list_elem_of_fmap in Hin as (d' & [= <-] & Hin).
  apply list_elem_of_lookup in Hin as [i Hi].
  destruct (Forall2_lookup_r _ _ _ _ _ Hf Hi) as (x & _ & Hxd).
  apply obj_to_datetime_cell in Hxd
    as [[_ [=]]|[(s & _ & _ & [=])|(s & v & _ & _ & Hv & [= <-] & Hvalid & _)]].
  split; [exact Hvalid|].
  destruct (year_subsets_has _ Hy) as [sub Hsub].
  destruct (year_subsets_range _ sub df Hsub) as (_ & lo & hi & E & Ha & Hb).
  destruct (date_range_rows df ds lo hi _ _ Hl Ha Hb) as (s0 & Hs0 & Hrows).
  exists sub, s0. split; [exact Hsub|]. rewrite E. split; [exact Hs0|].
  rewrite Hrows. apply list_elem_of_In, filter_In.
  split; [apply list_elem_of_In; exact Hr|].
  unfold row_dated. rewrite Hd. apply year_between; [exact Hvalid|reflexivity].
Qed.

Lemma year_subsets_cover_witness :
  clean sample_raw = Ok sample_clean /\
  forall r d,
    r ∈ rows sample_clean -> row_get (u "Date") r.2 = Some (CDate (Some d)) ->
    2018 <= year d <= 2022 ->
    valid_date d = true /\
    exists sub s, (year d, sub) ∈ year_subsets /\ sub sample_clean = Ok s /\ r ∈ rows s.
Proof.
  split; [vm_compute; reflexivity|].
  apply (year_subsets_cover sample_raw sample_clean
           [OStr (u "01/04/2015"); OStr (u "31/12/2018"); OStr (u "01/01/2019"); OStr (u "31/12/2022")]).
  - vm_compute. reflexivity.
  - reflexivity.
Defined.

(** ** The tables at work *)

(** Whitespace above ASCII is stripped like the blank; [int()] reads the
    digits of other scripts and skips the whitespace [strip] knows, but
    for FS, GS, RS and US; a text for NaT parses to NaT. *)
Example strip_unicode :
  strip (0xA0%N :: u " 12 " ++ [0x3000%N])%list = u "12" /\
  py_int (0xA0%N :: u "12")%list = Some 12 /\
  py_int [0x661%N; 0x662%N] = Some 12 /\
  py_int (0x1C%N :: u "7")%list = None /\
  strip (0x1C%N :: u "7")%list = u "7" /\
  obj_to_datetime (OStr (u "NaT")) = Ok None /\
  obj_to_datetime (OStr (u "")) = Ok None /\
  obj_to_datetime (OStr (u "Nat")) = Raise ValueError.
Proof. repeat split; reflexivity. Qed.
